(** * Shallow embedding of [nsp2grading/cli.py] (ecpcgrading repository)

    The grading CLI keeps no state of its own: the roster is recomputed from
    the children of the code directory, the environment pool is queried from
    conda, and the "session" position is recovered from the working
    directory.  We model

    - paths as lists of segments (an absolute [pathlib.Path] by its parts);
    - the code directory by what sits at its path ([top]) and, when it is a
      directory, by its children ([codedir]), each a file or a directory
      with the relative paths of the files below it in traversal order;
    - conda's store as the list of environment prefixes it reports;
    - Python exceptions as the constructors of [exn]; a command either
      returns a value or propagates an uncaught exception ([result]);
    - external calls (conda subprocesses) as entries of a trace, their
      success decided by an oracle.

    Strings are Rocq [string]s (8-bit characters); [sorted] on them compares
    character codes lexicographically, as Python does on code points. *)

From Stdlib Require Import List String Ascii Bool Arith NArith Lia.
From Stdlib Require Import Sorting.Sorted Sorting.Permutation.
Import ListNotations.
Open Scope string_scope.
Open Scope list_scope.

(** ** Exceptions and results *)

Inductive exn :=
| ValueError          (* [Path.relative_to], [list.index] *)
| IndexError          (* [students[0]], [parts[0]] *)
| AttributeError      (* [None.parent], [None.group] *)
| FileNotFoundError   (* [iterdir] on a missing directory *)
| NotADirectoryError  (* [iterdir] on a regular file *)
| FileExistsError     (* [mkdir] over an existing file *)
| BadZipFile.         (* [zipfile.ZipFile] on a corrupt archive *)

Inductive result (A : Type) :=
| Ok (a : A)
| Err (e : exn).
Arguments Ok {A} a.
Arguments Err {A} e.

Definition bind {A B} (m : result A) (k : A -> result B) : result B :=
  match m with
  | Ok a => k a
  | Err e => Err e
  end.

Notation "x <- m ;; k" := (bind m (fun x => k))
  (at level 61, m at next level, right associativity).

(** ** Paths and the code directory *)

Definition path := list string.

(** [Path.parent]: drop the last segment. *)
Definition parent (p : path) : path := removelast p.

(** [Path.name]: the last segment ("" for the root). *)
Definition name (p : path) : string := last p "".

(** A child of the code directory: a regular file, or a directory together
    with the relative paths of the files below it, in traversal order. *)
Inductive entry :=
| EFile
| EDir (files : list path).

Definition codedir := list (string * entry).

(** What sits at the path [grading_home / config.general.code_dir]. *)
Inductive top :=
| TAbsent                (* nothing there; the parent directory exists *)
| TFile
| TDir (c : codedir)
| TNoParent.             (* nothing there, nor at the parent directory *)

Definition is_dir_entry (e : string * entry) : bool :=
  match snd e with EDir _ => true | EFile => false end.

(** [p.name for p in code_dir.iterdir() if p.is_dir()] *)
Definition dir_names (c : codedir) : list string :=
  map fst (filter is_dir_entry c).

(** Python's [sorted] on strings (insertion sort; for a total antisymmetric
    order every correct sort returns the same list). *)
Fixpoint insert (x : string) (l : list string) : list string :=
  match l with
  | [] => [x]
  | h :: t => if String.leb x h then x :: h :: t else h :: insert x t
  end.

Fixpoint sorted (l : list string) : list string :=
  match l with
  | [] => []
  | h :: t => insert h (sorted t)
  end.

(** [get_students]: sorted names of the subdirectories of the code
    directory; [iterdir] raises when the code directory is missing. *)
Definition get_students (t : top) : result (list string) :=
  match t with
  | TAbsent | TNoParent => Err FileNotFoundError
  | TFile => Err NotADirectoryError
  | TDir c => Ok (sorted (dir_names c))
  end.

(** [make_env_name] *)
Definition make_env_name (student : string) : string := ("env_" ++ student)%string.
Arguments make_env_name : simpl never.

(** ** Session navigation *)

(** [Path.relative_to]: strips [base] from the front of [p], segment by
    segment; [None] stands for the [ValueError] it raises otherwise. *)
Fixpoint strip_prefix (base p : path) : option path :=
  match base, p with
  | [], _ => Some p
  | b :: bs, x :: xs => if String.eqb b x then strip_prefix bs xs else None
  | _ :: _, [] => None
  end.

Definition relative_to (p base : path) : result path :=
  match strip_prefix base p with
  | Some r => Ok r
  | None => Err ValueError
  end.

(** [parts[0]] *)
Definition first_part (p : path) : result string :=
  match p with
  | x :: _ => Ok x
  | [] => Err IndexError
  end.

(** [list.index]: position of the first occurrence. *)
Fixpoint index (x : string) (l : list string) : option nat :=
  match l with
  | [] => None
  | h :: t => if String.eqb x h then Some 0
              else match index x t with Some i => Some (S i) | None => None end
  end.

Definition index_r (x : string) (l : list string) : result nat :=
  match index x l with Some i => Ok i | None => Err ValueError end.

(** [l[i]] for a non-negative [i]. *)
Definition getitem (l : list string) (i : nat) : result string :=
  match nth_error l i with Some x => Ok x | None => Err IndexError end.

(** A relative path matched by the glob pattern ["**/pyproject.toml"]. *)
Definition is_pyproject (rel : path) : bool := String.eqb (name rel) "pyproject.toml".

Definition lookup_child (s : string) (c : codedir) : option entry :=
  match find (fun e => String.eqb (fst e) s) c with
  | Some (_, e) => Some e
  | None => None
  end.

(** [find_pyproject_toml]: the first file named [pyproject.toml] below
    [code_dir / student] in traversal order, [None] when the glob yields
    nothing. *)
Definition find_pyproject_toml (code_dir : path) (t : top) (student : string)
  : option path :=
  match t with
  | TDir c =>
      match lookup_child student c with
      | Some (EDir files) =>
          match find is_pyproject files with
          | Some rel => Some (code_dir ++ student :: rel)
          | None => None
          end
      | _ => None
      end
  | _ => None
  end.

(** [find_pyproject_toml(...).parent]: [None.parent] raises. *)
Definition project_dir (code_dir : path) (t : top) (student : string) : result path :=
  match find_pyproject_toml code_dir t student with
  | Some p => Ok (parent p)
  | None => Err AttributeError
  end.

(** [start_grading]: the [cd] target and the environment to activate. *)
Definition start_grading (code_dir : path) (t : top) : result (path * string) :=
  students <- get_students t ;;
  first_student <- getitem students 0 ;;
  project_path <- project_dir code_dir t first_student ;;
  Ok (project_path, make_env_name first_student).

(** [grade_next_student], with [cwd = Path.cwd()]. *)
Definition grade_next_student (code_dir cwd : path) (t : top) : result (path * string) :=
  current_dir <- relative_to cwd code_dir ;;
  current_student <- first_part current_dir ;;
  students <- get_students t ;;
  idx <- index_r current_student students ;;
  next_student <- getitem students ((idx + 1) mod List.length students) ;;
  project_path <- project_dir code_dir t next_student ;;
  Ok (project_path, make_env_name next_student).

(** The student whose directory the grader is in, as [next] recovers it. *)
Definition current_student (code_dir cwd : path) : option string :=
  match strip_prefix code_dir cwd with
  | Some (s :: _) => Some s
  | _ => None
  end.

(** The grader evaluates the printed [cd]: the next working directory. *)
Definition next_cwd (code_dir : path) (t : top) (cwd : path) : option path :=
  match grade_next_student code_dir cwd t with
  | Ok (p, _) => Some p
  | Err _ => None
  end.

Fixpoint iterate_next (code_dir : path) (t : top) (n : nat) (cwd : path) : option path :=
  match n with
  | O => Some cwd
  | S n' => match next_cwd code_dir t cwd with
            | Some cwd' => iterate_next code_dir t n' cwd'
            | None => None
            end
  end.

(** Well-formed code directory: child names are unique. *)
Definition wf_codedir (c : codedir) : Prop := NoDup (map fst c).

(** The layout of the spec: every student directory holds a manifest. *)
Definition has_manifests (code_dir : path) (c : codedir) : Prop :=
  forall s, In s (dir_names c) ->
    exists p, find_pyproject_toml code_dir (TDir c) s = Some p.


(** The student the grader stands at after [k] shell-integrated [next]s. *)
Definition student_after (code_dir : path) (t : top) (k : nat) (cwd0 : path) : option string :=
  match iterate_next code_dir t k cwd0 with
  | Some w => current_student code_dir w
  | None => None
  end.

(** ** Conda environments *)

(** [Path(p).name] of a prefix whose [parent.name == "envs"]. *)
Definition env_of_prefix (p : path) : option string :=
  match rev p with
  | n :: "envs" :: _ => Some n
  | _ => None
  end.

(** [get_all_environments]: the prefixes reported by [conda env list --json]
    that sit in an [envs] directory, by name. *)
Definition get_all_environments (store : list path) : list string :=
  flat_map (fun p => match env_of_prefix p with Some n => [n] | None => [] end) store.

Definition mem (x : string) (l : list string) : bool := existsb (String.eqb x) l.

(** [list_environments]: the printed lines. *)
Definition list_environments (store : list path) (t : top) : result (list string) :=
  students <- get_students t ;;
  Ok (filter (fun student_env => mem student_env (get_all_environments store))
             (map make_env_name students)).

(** External commands run by the batches. *)
Inductive call :=
| CondaCreate (env_name : string)          (* conda create -n env_name python=3.9 --yes *)
| CondaRemove (env_name : string)          (* conda env remove -n env_name *)
| PoetryInstall (env_name : string) (cwd : path)  (* conda run -n env_name poetry install *)
| HelpModules (env_name : string).         (* conda run -n env_name python -c "help('modules')" *)

(** What a batch does, in order: a command run, the red error printed for a
    failed command ([CalledProcessError]), or the missing-manifest error. *)
Inductive event :=
| Run (c : call)
| Failed (c : call)
| NoManifest (student : string).

(** Effect of a successful command on conda's store. [conda_root] is the
    conda installation whose [envs] directory receives named environments. *)
Definition conda_effect (conda_root : path) (c : call) (store : list path) : list path :=
  match c with
  | CondaCreate n =>
      let p := conda_root ++ ["envs"; n] in
      if in_dec (list_eq_dec string_dec) p store then store else store ++ [p]
  | CondaRemove n =>
      filter (fun p => match env_of_prefix p with
                       | Some m => negb (String.eqb m n)
                       | None => true
                       end) store
  | _ => store
  end.

Section Batches.
(** Outcome of each external command ([check=True]: false means a non-zero
    exit status). *)
Variable ok : call -> bool.
Variable conda_root : path.
Variable code_dir : path.
(** The code directory, read by [find_pyproject_toml]. *)
Variable t : top.

(** The loop of [create_environments]; [environments] was read once
    before the loop.  A failure [break]s out of the loop. *)
Fixpoint create_loop (force : bool) (environments : list string)
    (students : list string) (store : list path) : list event * list path :=
  match students with
  | [] => ([], store)
  | student :: rest =>
      let env_name := make_env_name student in
      if negb (mem env_name environments) || force then
        let c := CondaCreate env_name in
        if ok c then
          let '(evs, store') := create_loop force environments rest (conda_effect conda_root c store) in
          (Run c :: evs, store')
        else ([Run c; Failed c], store)
      else create_loop force environments rest store
  end.

(** The loop of [remove_environments]: a failure is printed and the loop
    [continue]s. *)
Fixpoint remove_loop (environments : list string) (students : list string)
    (store : list path) : list event * list path :=
  match students with
  | [] => ([], store)
  | student :: rest =>
      let env_name := make_env_name student in
      if mem env_name environments then
        let c := CondaRemove env_name in
        if ok c then
          let '(evs, store') := remove_loop environments rest (conda_effect conda_root c store) in
          (Run c :: evs, store')
        else
          let '(evs, store') := remove_loop environments rest store in
          (Run c :: Failed c :: evs, store')
      else remove_loop environments rest store
  end.

(** The loop of [install_environments]: a missing manifest or a failing
    phase is printed and the loop [continue]s. *)
Fixpoint install_loop (environments : list string) (students : list string) : list event :=
  match students with
  | [] => []
  | student :: rest =>
      let env_name := make_env_name student in
      if mem env_name environments then
        match find_pyproject_toml code_dir t student with
        | None => NoManifest student :: install_loop environments rest
        | Some project_path =>
            let c1 := PoetryInstall env_name (parent project_path) in
            if ok c1 then
              let c2 := HelpModules env_name in
              if ok c2 then Run c1 :: Run c2 :: install_loop environments rest
              else Run c1 :: Run c2 :: Failed c2 :: install_loop environments rest
            else Run c1 :: Failed c1 :: install_loop environments rest
        end
      else install_loop environments rest
  end.

Definition create_environments (force : bool) (store : list path)
    : result (list event * list path) :=
  let environments := get_all_environments store in
  students <- get_students t ;;
  Ok (create_loop force environments students store).

Definition remove_environments (store : list path) : result (list event * list path) :=
  let environments := get_all_environments store in
  students <- get_students t ;;
  Ok (remove_loop environments students store).

Definition install_environments (store : list path) : result (list event) :=
  let environments := get_all_environments store in
  students <- get_students t ;;
  Ok (install_loop environments students).
End Batches.

(** Number of [conda create] commands run for a given environment. *)
Definition count_creates (env_name : string) (evs : list event) : nat :=
  List.length (filter (fun e => match e with
                                | Run (CondaCreate n) => String.eqb n env_name
                                | _ => false
                                end) evs).

(** ** Unpacking submissions *)

Definition is_lower (ch : ascii) : bool :=
  Nat.leb 97 (nat_of_ascii ch) && Nat.leb (nat_of_ascii ch) 122.

(** Longest prefix of lowercase letters, and the rest. *)
Fixpoint span_lower (s : string) : string * string :=
  match s with
  | EmptyString => (EmptyString, EmptyString)
  | String ch rest =>
      if is_lower ch then let '(a, b) := span_lower rest in (String ch a, b)
      else (EmptyString, s)
  end.

(** [re.match(RE_STUDENT_NAME, name)] with [RE_STUDENT_NAME = "(?P<name>[a-z]+)_"]:
    the greedy run of lowercase letters at the start, followed by ["_"]
    (backtracking to a shorter run only meets another letter). *)
Definition student_of_filename (filename : string) : option string :=
  match span_lower filename with
  | (EmptyString, _) => None
  | (run, String "_"%char _) => Some run
  | _ => None
  end.

(** A [*.zip] file of the submissions directory: its name and, when it is a
    valid archive, the relative paths of its members. *)
Record submission := {
  filename : string;
  members : option (list path)
}.

(** The loop of [uncompress_submissions] over the code directory's children:
    the resulting directory and the exception that ended the batch, if any. *)
Fixpoint unpack_loop (c : codedir) (subs : list submission) : codedir * option exn :=
  match subs with
  | [] => (c, None)
  | sub :: rest =>
      match student_of_filename (filename sub) with
      | None => (c, Some AttributeError)          (* None.group("name") *)
      | Some student =>
          match lookup_child student c with
          | Some (EDir _) => unpack_loop c rest   (* student_dir.is_dir() *)
          | Some EFile => (c, Some FileExistsError)  (* student_dir.mkdir() *)
          | None =>
              match members sub with
              | None => (c ++ [(student, EDir [])], Some BadZipFile)
              | Some files => unpack_loop (c ++ [(student, EDir files)]) rest
              end
          end
      end
  end.

(** [code_dir.mkdir(exist_ok=True)]. *)
Definition mkdir_exist_ok (t : top) : result codedir :=
  match t with
  | TAbsent => Ok []
  | TNoParent => Err FileNotFoundError        (* no [parents=True] *)
  | TFile => Err FileExistsError
  | TDir c => Ok c
  end.

(** [uncompress_submissions]: what sits at the code directory's path
    afterwards, and the exception that ended the command, if any. *)
Definition uncompress_submissions (t : top) (subs : list submission) : top * option exn :=
  match mkdir_exist_ok t with
  | Err e => (t, Some e)
  | Ok c => let '(c', e) := unpack_loop c subs in (TDir c', e)
  end.

(** Two [env create] invocations without [--force], the second one on
    the conda store the first one left; the commands of both, in order. *)
Definition create_twice (ok1 ok2 : call -> bool) (conda_root : path) (t : top)
    (store : list path) : result (list event) :=
  r1 <- create_environments ok1 conda_root t false store ;;
  r2 <- create_environments ok2 conda_root t false (snd r1) ;;
  Ok (fst r1 ++ fst r2).

(** The order [get_students] sorts by. *)
Definition lex_le (a b : string) : Prop := String.leb a b = true.

(** The student directory of a submission exists in [c]. *)
Definition unpacked (c : codedir) (sub : submission) : Prop :=
  exists student files,
    student_of_filename (filename sub) = Some student /\
    lookup_child student c = Some (EDir files).

(** ** Configuration lookup *)

Definition CONFIG_FILE : string := "grading.toml".

(** [[cwd] + list(cwd.parents)]: the prefixes of [cwd], longest first, down
    to the root (the empty path). *)
Definition self_and_parents (cwd : path) : list path :=
  map (fun n => firstn n cwd) (rev (seq 0 (S (List.length cwd)))).

(** The loop of [find_config_file]; [exists_] is [Path.exists]. *)
Fixpoint first_config (exists_ : path -> bool) (dirs : list path) : option path :=
  match dirs with
  | [] => None
  | directory :: rest =>
      let config_path := directory ++ [CONFIG_FILE] in
      if exists_ config_path then Some config_path else first_config exists_ rest
  end.

Definition find_config_file (exists_ : path -> bool) (cwd : path) : option path :=
  first_config exists_ (self_and_parents cwd).

(** [init]: the file it writes ([Path(CONFIG_FILE)], relative to [cwd]),
    if any. *)
Definition init (exists_ : path -> bool) (cwd : path) : option path :=
  match find_config_file exists_ cwd with
  | Some _ => None
  | None => Some (cwd ++ [CONFIG_FILE])
  end.

(** The file system after writing the file at [p]. *)
Definition add_file (exists_ : path -> bool) (p : path) : path -> bool :=
  fun q => if list_eq_dec string_dec q p then true else exists_ q.

(** [read_config]: [load] stands for [tomlkit.parse(config_path.read_text())],
    the parsed document or the exception reading or parsing raises. *)
Definition read_config {Config : Type} (load : path -> result Config)
    (config_path : option path) : option (result Config) :=
  match config_path with
  | None => None
  | Some p => Some (load p)
  end.

(** What the [cli] group does before its subcommand runs. *)
Inductive cli_outcome (Config : Type) :=
| CliAbort                          (* "Configuration file not found" *)
| CliInit                           (* [init] runs without a configuration *)
| CliFail (e : exn)                 (* [read_config] raised *)
| CliRun (config : Config) (grading_home : path).  (* [ctx.obj] *)
Arguments CliAbort {Config}.
Arguments CliInit {Config}.
Arguments CliFail {Config} e.
Arguments CliRun {Config} config grading_home.

Definition cli {Config : Type} (load : path -> result Config) (exists_ : path -> bool)
    (cwd : path) (invoked_subcommand : string) : cli_outcome Config :=
  let config_path := find_config_file exists_ cwd in
  if String.eqb invoked_subcommand "init" then CliInit
  else match config_path with
       | None => CliAbort
       | Some p =>
           match read_config load config_path with
           | Some (Ok config) => CliRun config (parent p)
           | Some (Err e) => CliFail e
           | None => CliAbort               (* [read_config(None)]: not reached *)
           end
       end.

(** ** Views on batch traces *)

(** The commands a batch ran, in order. *)
Definition runs (evs : list event) : list call :=
  flat_map (fun e => match e with Run c => [c] | _ => [] end) evs.

(** A list of commands up to and including the first one that fails. *)
Fixpoint take_through (ok : call -> bool) (l : list call) : list call :=
  match l with
  | [] => []
  | c :: rest => if ok c then c :: take_through ok rest else [c]
  end.

(** Every character is one of [a-z]. *)
Fixpoint all_lower (s : string) : bool :=
  match s with
  | EmptyString => true
  | String ch rest => is_lower ch && all_lower rest
  end.

(** ** Demonstration inputs *)

Module Demo.
Definition home : path := ["home"; "ta"; "code"].
Definition proj : entry := EDir [["pyproject.toml"]; ["src"; "main.py"]].
Definition c3 : codedir :=
  [("carol", proj); ("notes.txt", EFile); ("alice", proj); ("bob", EDir [["hw"; "pyproject.toml"]])].

Example roster3 : get_students (TDir c3) = Ok ["alice"; "bob"; "carol"].
Proof. reflexivity. Qed.

Example start3 : start_grading home (TDir c3) = Ok (home ++ ["alice"], "env_alice").
Proof. reflexivity. Qed.

Example next_alice :
  grade_next_student home (home ++ ["alice"; "src"]) (TDir c3)
  = Ok (home ++ ["bob"; "hw"], "env_bob").
Proof. reflexivity. Qed.

Example next_carol :
  grade_next_student home (home ++ ["carol"]) (TDir c3) = Ok (home ++ ["alice"], "env_alice").
Proof. reflexivity. Qed.

Definition conda : path := ["opt"; "conda"].
Definition store_base : list path := [conda].
Definition store_all : list path :=
  [conda; conda ++ ["envs"; "env_alice"]; conda ++ ["envs"; "env_bob"];
   conda ++ ["envs"; "env_carol"]; conda ++ ["envs"; "scratch"]].

(** The external manager fails for bob, and only for bob. *)
Definition fails_for_bob (c : call) : bool :=
  match c with
  | CondaCreate n | CondaRemove n | PoetryInstall n _ | HelpModules n =>
      negb (String.eqb n "env_bob")
  end.

Definition never_ok (c : call) : bool := false.

Example regex_ok : student_of_filename "alice_hw1.zip" = Some "alice".
Proof. reflexivity. Qed.

Example regex_upper : student_of_filename "Alice_hw1.zip" = None.
Proof. reflexivity. Qed.

Example list_all : list_environments store_all (TDir c3) = Ok ["env_alice"; "env_bob"; "env_carol"].
Proof. reflexivity. Qed.
Definition subs : list submission :=
  [{| filename := "alice_hw1.zip"; members := Some [["pyproject.toml"]; ["main.py"]] |};
   {| filename := "bob_hw1.zip"; members := Some [["hw"; "pyproject.toml"]] |}].
(** A [grading.toml] in [/home], two levels above the code directory. *)
Definition ta_config (p : path) : bool :=
  if list_eq_dec string_dec p ["home"; CONFIG_FILE] then true else false.

(** A student directory without a manifest, first in the roster. *)
Definition c_missing : codedir := ("aaron", EDir [["notes.txt"]]) :: c3.
End Demo.

(** ** Facts about the string order *)

Lemma ascii_compare_trans (a b c : ascii) :
  Ascii.compare a b = Lt -> Ascii.compare b c = Lt -> Ascii.compare a c = Lt.
Proof.
  unfold Ascii.compare; rewrite !N.compare_lt_iff; lia.
Qed.

Lemma string_compare_lt_trans (s1 s2 s3 : string) :
  String.compare s1 s2 = Lt -> String.compare s2 s3 = Lt ->
  String.compare s1 s3 = Lt.
Proof.
  revert s2 s3; induction s1 as [|a s1 IH]; intros [|b s2] [|c s3]; simpl;
    try discriminate; auto.
  destruct (Ascii.compare a b) eqn:Eab; try discriminate;
  destruct (Ascii.compare b c) eqn:Ebc; try discriminate; intros H1 H2.
  - apply Ascii.compare_eq_iff in Eab; apply Ascii.compare_eq_iff in Ebc; subst.
    assert (Ascii.compare c c = Eq) as -> by (unfold Ascii.compare; apply N.compare_refl).
    eauto.
  - apply Ascii.compare_eq_iff in Eab; subst; now rewrite Ebc.
  - apply Ascii.compare_eq_iff in Ebc; subst; now rewrite Eab.
  - now rewrite (ascii_compare_trans _ _ _ Eab Ebc).
Qed.

Lemma lex_le_trans (a b c : string) : lex_le a b -> lex_le b c -> lex_le a c.
Proof.
  unfold lex_le, String.leb.
  destruct (String.compare a b) eqn:Eab; try discriminate;
  destruct (String.compare b c) eqn:Ebc; try discriminate; intros _ _.
  - apply String.compare_eq_iff in Eab; subst; now rewrite Ebc.
  - apply String.compare_eq_iff in Eab; subst; now rewrite Ebc.
  - apply String.compare_eq_iff in Ebc; subst; now rewrite Eab.
  - now rewrite (string_compare_lt_trans _ _ _ Eab Ebc).
Qed.

Lemma lex_le_not (a b : string) : String.leb a b = false -> lex_le b a.
Proof.
  intros H; destruct (String.leb_total a b) as [H'|H']; [congruence|exact H'].
Qed.

(** ** Sorting *)

Lemma insert_perm (x : string) (l : list string) : Permutation (insert x l) (x :: l).
Proof.
  induction l as [|h t IH]; simpl; [reflexivity|].
  destruct (String.leb x h); [reflexivity|].
  rewrite IH; apply perm_swap.
Qed.

Lemma sorted_perm (l : list string) : Permutation (sorted l) l.
Proof.
  induction l as [|h t IH]; simpl; [reflexivity|].
  rewrite insert_perm; now constructor.
Qed.

Lemma insert_Sorted (x : string) (l : list string) :
  Sorted lex_le l -> Sorted lex_le (insert x l).
Proof.
  induction 1 as [|h t Ht IH Hhd]; simpl.
  - repeat constructor.
  - destruct (String.leb x h) eqn:E.
    + constructor; [constructor; auto|constructor; exact E].
    + constructor; [exact IH|].
      apply lex_le_not in E.
      destruct t as [|h' t']; simpl; [constructor; exact E|].
      destruct (String.leb x h'); constructor; [exact E|].
      now inversion Hhd.
Qed.

Lemma sorted_Sorted (l : list string) : Sorted lex_le (sorted l).
Proof.
  induction l; simpl; [constructor|now apply insert_Sorted].
Qed.

Lemma StronglySorted_perm_unique (l1 l2 : list string) :
  StronglySorted lex_le l1 -> StronglySorted lex_le l2 ->
  Permutation l1 l2 -> l1 = l2.
Proof.
  revert l2; induction l1 as [|a t1 IH]; intros l2 H1 H2 P.
  - symmetry; now apply Permutation_nil.
  - destruct l2 as [|b t2]; [now apply Permutation_sym, Permutation_nil_cons in P|].
    apply StronglySorted_inv in H1 as [H1 F1].
    apply StronglySorted_inv in H2 as [H2 F2].
    assert (a = b) as <-.
    { destruct (String.eqb_spec a b) as [|Hne]; [assumption|].
      assert (In a t2) as Ia.
      { assert (In a (b :: t2)) as I by (rewrite <- P; now left).
        destruct I; [congruence|assumption]. }
      assert (In b t1) as Ib.
      { assert (In b (a :: t1)) as I by (rewrite P; now left).
        destruct I; [congruence|assumption]. }
      apply String.leb_antisym.
      - exact (proj1 (Forall_forall _ _) F1 b Ib).
      - exact (proj1 (Forall_forall _ _) F2 a Ia). }
    f_equal; apply IH; auto.
    now apply Permutation_cons_inv in P.
Qed.

Lemma sorted_perm_eq (l1 l2 : list string) :
  Permutation l1 l2 -> sorted l1 = sorted l2.
Proof.
  intros P.
  apply StronglySorted_perm_unique;
    try (apply Sorted_StronglySorted; [exact lex_le_trans|apply sorted_Sorted]).
  rewrite !sorted_perm; exact P.
Qed.

Lemma sorted_NoDup (l : list string) : NoDup l -> NoDup (sorted l).
Proof.
  intros H; eapply Permutation_NoDup; [symmetry; apply sorted_perm|exact H].
Qed.

(** ** Lemmas on paths, indices and rosters *)

Lemma strip_prefix_app (b l : path) : strip_prefix b (b ++ l) = Some l.
Proof. induction b; simpl; [reflexivity|now rewrite String.eqb_refl]. Qed.

Lemma strip_prefix_inv (b p l : path) : strip_prefix b p = Some l -> p = b ++ l.
Proof.
  revert p; induction b as [|x b IH]; intros [|y p]; simpl; try congruence.
  destruct (String.eqb_spec x y); [subst; intros H; f_equal; auto|discriminate].
Qed.

Lemma index_nth_NoDup (l : list string) (i : nat) (x : string) :
  NoDup l -> nth_error l i = Some x -> index x l = Some i.
Proof.
  revert i; induction l as [|h t IH]; intros [|i] Hnd Hn; simpl in *; try discriminate.
  - injection Hn as <-; now rewrite String.eqb_refl.
  - inversion Hnd as [|? ? Hh Ht]; subst.
    destruct (String.eqb_spec x h) as [->|]; [|now rewrite (IH i Ht Hn)].
    exfalso; apply Hh; eapply nth_error_In; eauto.
Qed.

Lemma dir_names_NoDup (c : codedir) : wf_codedir c -> NoDup (dir_names c).
Proof.
  unfold wf_codedir, dir_names; induction c as [|[n e] c IH]; simpl; intros H;
    [constructor|].
  inversion H as [|? ? Hn Hc]; subst.
  destruct e; simpl; auto.
  constructor; auto.
  intros Hin; apply Hn.
  apply in_map_iff in Hin as [x [Heq Hin]].
  apply filter_In in Hin; apply in_map_iff; exists x; tauto.
Qed.

Lemma roster_NoDup (c : codedir) : wf_codedir c -> NoDup (sorted (dir_names c)).
Proof. intros; now apply sorted_NoDup, dir_names_NoDup. Qed.

Lemma roster_In (c : codedir) (s : string) :
  In s (sorted (dir_names c)) -> In s (dir_names c).
Proof. apply Permutation_in, sorted_perm. Qed.

Lemma find_pyproject_shape (code_dir : path) (t : top) (s : string) (p : path) :
  find_pyproject_toml code_dir t s = Some p ->
  exists rel, rel <> [] /\ p = code_dir ++ s :: rel.
Proof.
  unfold find_pyproject_toml.
  destruct t as [| |c|]; try discriminate.
  destruct (lookup_child s c) as [[|files]|]; try discriminate.
  destruct (find is_pyproject files) as [rel|] eqn:E; try discriminate.
  intros H; injection H as <-; exists rel; split; [|reflexivity].
  apply find_some in E as [_ E]; intros ->; discriminate E.
Qed.

Lemma project_parent_student (code_dir : path) (t : top) (s : string) (p : path) :
  find_pyproject_toml code_dir t s = Some p ->
  current_student code_dir (parent p) = Some s.
Proof.
  intros H; apply find_pyproject_shape in H as [rel [Hne ->]].
  unfold current_student, parent.
  rewrite removelast_app by discriminate.
  rewrite strip_prefix_app; simpl.
  destruct rel; [congruence|reflexivity].
Qed.

Lemma map_nth_error_seq (l d : list string) :
  map (fun k => nth_error (d ++ l) k) (seq (List.length d) (List.length l)) = map Some l.
Proof.
  revert d; induction l as [|x t IH]; intros d; simpl; [reflexivity|].
  rewrite nth_error_app2, Nat.sub_diag by lia; simpl; f_equal.
  specialize (IH (d ++ [x])); rewrite <- app_assoc, length_app in IH; simpl in IH.
  now rewrite Nat.add_1_r in IH.
Qed.

(** One step of [next] from the directory of the student at index [i]. *)
Lemma next_step (code_dir : path) (c : codedir) (i : nat) (s : string) (rest : path) :
  wf_codedir c -> has_manifests code_dir c ->
  nth_error (sorted (dir_names c)) i = Some s ->
  exists s' p,
    nth_error (sorted (dir_names c)) ((i + 1) mod List.length (sorted (dir_names c))) = Some s' /\
    find_pyproject_toml code_dir (TDir c) s' = Some p /\
    grade_next_student code_dir (code_dir ++ s :: rest) (TDir c) = Ok (parent p, make_env_name s').
Proof.
  intros Hwf Hman Hi.
  set (roster := sorted (dir_names c)) in *.
  assert (Hlt : i < List.length roster) by (apply nth_error_Some; congruence).
  destruct (nth_error roster ((i + 1) mod List.length roster)) as [s'|] eqn:Hs'.
  2:{ apply nth_error_None in Hs'.
      pose proof (Nat.mod_upper_bound (i + 1) (List.length roster)); lia. }
  destruct (Hman s') as [p Hp].
  { apply roster_In; eapply nth_error_In; eauto. }
  exists s', p; repeat split; auto.
  unfold grade_next_student, relative_to.
  rewrite strip_prefix_app; cbn [bind first_part get_students].
  fold roster; unfold index_r.
  rewrite (index_nth_NoDup roster i s (roster_NoDup c Hwf) Hi); cbn [bind].
  unfold getitem; rewrite Hs'; cbn [bind].
  unfold project_dir; rewrite Hp; reflexivity.
Qed.

Lemma iterate_position (code_dir : path) (c : codedir) :
  wf_codedir c -> has_manifests code_dir c ->
  forall k i cwd,
    current_student code_dir cwd = nth_error (sorted (dir_names c)) i ->
    i < List.length (sorted (dir_names c)) ->
    student_after code_dir (TDir c) k cwd
    = nth_error (sorted (dir_names c)) ((i + k) mod List.length (sorted (dir_names c))).
Proof.
  intros Hwf Hman k.
  set (roster := sorted (dir_names c)).
  induction k as [|k IH]; intros i cwd Hcur Hlt.
  - unfold student_after; simpl; rewrite Nat.add_0_r, Nat.mod_small by lia; exact Hcur.
  - destruct (nth_error roster i) as [s|] eqn:Hi.
    2:{ apply nth_error_None in Hi; lia. }
    unfold current_student in Hcur.
    destruct (strip_prefix code_dir cwd) as [[|s0 rest]|] eqn:Hsp; try discriminate.
    injection Hcur as ->.
    apply strip_prefix_inv in Hsp; subst cwd.
    destruct (next_step code_dir c i s rest Hwf Hman Hi) as (s' & p & Hs' & Hp & Hnext).
    unfold student_after; simpl; unfold next_cwd; rewrite Hnext.
    fold (student_after code_dir (TDir c) k (parent p)).
    rewrite (IH ((i + 1) mod List.length roster)).
    + rewrite Nat.Div0.add_mod_idemp_l; f_equal; f_equal; lia.
    + rewrite (project_parent_student _ _ _ _ Hp); symmetry; exact Hs'.
    + apply Nat.mod_upper_bound; lia.
Qed.

Lemma index_None (x : string) (l : list string) : ~ In x l -> index x l = None.
Proof.
  induction l as [|h t IH]; simpl; intros H; [reflexivity|].
  destruct (String.eqb_spec x h) as [->|]; [exfalso; tauto|].
  rewrite IH; tauto.
Qed.

Lemma mem_In (x : string) (l : list string) : mem x l = true <-> In x l.
Proof.
  unfold mem; rewrite existsb_exists; split.
  - intros [y [Hy Hxy]]; apply String.eqb_eq in Hxy; now subst.
  - intros H; exists x; split; [exact H|apply String.eqb_refl].
Qed.

Lemma make_env_name_inj (a b : string) : make_env_name a = make_env_name b -> a = b.
Proof. unfold make_env_name; cbn; intros H; now injection H. Qed.

Lemma make_env_name_prefix (s : string) : String.prefix "env_" (make_env_name s) = true.
Proof.
  unfold make_env_name; simpl.
  repeat (destruct ascii_dec as [_|Hn]; [|exfalso; now apply Hn]).
  now destruct s.
Qed.

Lemma hd_error_nth_error (l : list string) : hd_error l = nth_error l 0.
Proof. now destruct l. Qed.

Lemma map_nth_error_tl (l : list string) :
  map (fun k => nth_error l k) (seq 1 (List.length l - 1)) = map Some (tl l).
Proof.
  destruct l as [|h t]; [reflexivity|].
  simpl; rewrite Nat.sub_0_r; exact (map_nth_error_seq t [h]).
Qed.

(** * Claims and their lemmas *)

(** C7: [get_students] returns exactly the names of the subdirectories of
    the code directory, sorted lexicographically, and the result does not
    depend on the order in which the directory is listed: resolving again
    with no change to the set of subdirectories gives the same roster. *)
Theorem get_students_sorted_deterministic (c c' : codedir) :
  Permutation (dir_names c) (dir_names c') ->
  exists roster,
    get_students (TDir c) = Ok roster /\
    Sorted lex_le roster /\
    Permutation roster (dir_names c) /\
    get_students (TDir c') = Ok roster.
Proof.
  intros P; exists (sorted (dir_names c)); repeat split.
  - apply sorted_Sorted.
  - apply sorted_perm.
  - simpl; f_equal; symmetry; now apply sorted_perm_eq.
Qed.

Lemma get_students_sorted_deterministic_witness :
  Permutation (dir_names Demo.c3) (dir_names (rev Demo.c3)) /\
  exists roster,
    get_students (TDir Demo.c3) = Ok roster /\
    Sorted lex_le roster /\
    Permutation roster (dir_names Demo.c3) /\
    get_students (TDir (rev Demo.c3)) = Ok roster.
Proof.
  assert (P : Permutation (dir_names Demo.c3) (dir_names (rev Demo.c3))).
  { exact (Permutation_rev (dir_names Demo.c3)). }
  split; [exact P|apply (get_students_sorted_deterministic Demo.c3 (rev Demo.c3)); exact P].
Defined.

(** C2: from any working directory below [code_dir / roster[i]], [next]
    targets the roster entry at [(i + 1) mod len(roster)] and returns its
    project directory and environment name (every student directory holding
    a manifest, as in the layout of the spec); following the printed [cd]
    [len(roster)] times from the first student comes back to it, meeting
    every other student exactly once, in roster order. *)
Theorem next_student_cyclic (code_dir : path) (c : codedir) :
  wf_codedir c -> has_manifests code_dir c ->
  let roster := sorted (dir_names c) in
  let N := List.length roster in
  (forall i s rest,
     nth_error roster i = Some s ->
     exists s' p,
       nth_error roster ((i + 1) mod N) = Some s' /\
       find_pyproject_toml code_dir (TDir c) s' = Some p /\
       grade_next_student code_dir (code_dir ++ s :: rest) (TDir c)
       = Ok (parent p, make_env_name s')) /\
  (forall cwd0,
     current_student code_dir cwd0 = hd_error roster ->
     student_after code_dir (TDir c) N cwd0 = hd_error roster /\
     map (fun k => student_after code_dir (TDir c) k cwd0) (seq 1 (N - 1))
     = map Some (tl roster)).
Proof.
  intros Hwf Hman; cbv zeta.
  set (R := sorted (dir_names c)).
  split.
  - intros i s rest Hi; exact (next_step code_dir c i s rest Hwf Hman Hi).
  - intros cwd0 H0.
    destruct (Nat.eq_dec (List.length R) 0) as [HN|HN].
    + apply length_zero_iff_nil in HN; rewrite HN in *.
      unfold student_after; simpl; split; [exact H0|reflexivity].
    + assert (Hpos : forall k, k <= List.length R ->
                student_after code_dir (TDir c) k cwd0 = nth_error R (k mod List.length R)).
      { intros k Hk.
        rewrite (iterate_position code_dir c Hwf Hman k 0 cwd0); [reflexivity| |unfold R in HN; lia].
        rewrite H0; apply hd_error_nth_error. }
      split.
      * rewrite Hpos by lia; rewrite Nat.Div0.mod_same; symmetry; apply hd_error_nth_error.
      * rewrite (map_ext_in _ (fun k => nth_error R k)); [apply map_nth_error_tl|].
        intros k Hk; apply in_seq in Hk.
        rewrite Hpos by lia; rewrite Nat.mod_small by lia; reflexivity.
Qed.

Lemma Demo_c3_wf : wf_codedir Demo.c3.
Proof.
  unfold wf_codedir; simpl.
  repeat constructor; simpl; intuition discriminate.
Defined.

Lemma Demo_c3_manifests : has_manifests Demo.home Demo.c3.
Proof.
  intros s H; simpl in H.
  repeat (destruct H as [<-|H]; [eexists; reflexivity|]); contradiction.
Defined.

Lemma next_student_cyclic_witness :
  wf_codedir Demo.c3 /\ has_manifests Demo.home Demo.c3 /\
  grade_next_student Demo.home (Demo.home ++ ["carol"; "src"]) (TDir Demo.c3)
  = Ok (Demo.home ++ ["alice"], "env_alice") /\
  student_after Demo.home (TDir Demo.c3) 3 (Demo.home ++ ["alice"]) = Some "alice" /\
  map (fun k => student_after Demo.home (TDir Demo.c3) k (Demo.home ++ ["alice"])) [1; 2]
  = [Some "bob"; Some "carol"].
Proof.
  pose proof (next_student_cyclic Demo.home Demo.c3 Demo_c3_wf Demo_c3_manifests) as [H1 H2].
  split; [exact Demo_c3_wf|split; [exact Demo_c3_manifests|]].
  destruct (H1 2 "carol" ["src"] eq_refl) as (s' & p & Hs' & Hp & Hn).
  vm_compute in Hs'; injection Hs' as <-; vm_compute in Hp; injection Hp as <-.
  split; [exact Hn|].
  exact (H2 (Demo.home ++ ["alice"]) eq_refl).
Defined.

(** C9: on an empty roster [start_grading] raises the [IndexError] of
    [students[0]]: no target pair and no dedicated error. *)
Theorem start_grading_empty_roster (code_dir : path) (t : top) :
  get_students t = Ok [] -> start_grading code_dir t = Err IndexError.
Proof. intros H; unfold start_grading; rewrite H; reflexivity. Qed.

Lemma start_grading_empty_roster_witness :
  get_students (TDir [("notes.txt", EFile)]) = Ok [] /\
  start_grading Demo.home (TDir [("notes.txt", EFile)]) = Err IndexError.
Proof.
  split; [reflexivity|apply start_grading_empty_roster; reflexivity].
Defined.

(** C8: [env list] prints an environment name only when it is the
    [make_env_name] of a roster student (so it carries the ["env_"] prefix)
    and conda reports it in an [envs] directory: any other environment is
    left out. *)
Theorem list_environments_managed (store : list path) (t : top) (roster : list string) :
  get_students t = Ok roster ->
  exists out,
    list_environments store t = Ok out /\
    (forall n, In n out <->
       In n (get_all_environments store) /\ exists s, In s roster /\ n = make_env_name s) /\
    (forall n, In n out -> String.prefix "env_" n = true).
Proof.
  intros H; unfold list_environments; rewrite H; simpl.
  eexists; split; [reflexivity|].
  assert (Hin : forall n,
    In n (filter (fun e => mem e (get_all_environments store)) (map make_env_name roster)) <->
    In n (get_all_environments store) /\ exists s, In s roster /\ n = make_env_name s).
  { intros n; rewrite filter_In, mem_In, in_map_iff; split.
    - intros [[s [<- Hs]] Hm]; split; [exact Hm|exists s; auto].
    - intros [Hm [s [Hs ->]]]; split; [exists s; auto|exact Hm]. }
  split; [exact Hin|].
  intros n Hn; apply Hin in Hn as [_ [s [_ ->]]]; apply make_env_name_prefix.
Qed.

Lemma list_environments_managed_witness :
  get_students (TDir Demo.c3) = Ok ["alice"; "bob"; "carol"] /\
  exists out,
    list_environments Demo.store_all (TDir Demo.c3) = Ok out /\
    (forall n, In n out <->
       In n (get_all_environments Demo.store_all) /\
       exists s, In s ["alice"; "bob"; "carol"] /\ n = make_env_name s) /\
    (forall n, In n out -> String.prefix "env_" n = true).
Proof.
  split; [reflexivity|apply list_environments_managed; reflexivity].
Defined.

(** C6 (as stated, refuted): the failures of [next] outside a student
    directory are not one error: from outside the code directory
    [relative_to] raises [ValueError], from the code directory itself
    [parts[0]] raises [IndexError]. *)
Lemma grade_next_student_two_errors :
  grade_next_student Demo.home ["tmp"] (TDir Demo.c3) = Err ValueError /\
  grade_next_student Demo.home Demo.home (TDir Demo.c3) = Err IndexError /\
  ~ (exists E, grade_next_student Demo.home ["tmp"] (TDir Demo.c3) = Err E /\
               grade_next_student Demo.home Demo.home (TDir Demo.c3) = Err E).
Proof.
  split; [reflexivity|split; [reflexivity|]].
  intros [E [H1 H2]]; vm_compute in H1, H2; congruence.
Qed.

(** C6 (amended): [next] produces no (path, environment name) pair and
    raises an uncaught exception whenever the working directory is not below
    the code directory or the recovered name is not in the roster:
    [ValueError] when the working directory is outside the code directory
    ([relative_to]) or its first segment is not a roster entry
    ([list.index]), [IndexError] when it is the code directory itself. *)
Theorem grade_next_student_not_in_session (code_dir cwd : path) (t : top) (c : codedir) :
  (strip_prefix code_dir cwd = None ->
     grade_next_student code_dir cwd t = Err ValueError) /\
  grade_next_student code_dir code_dir t = Err IndexError /\
  (forall s rest, ~ In s (sorted (dir_names c)) ->
     grade_next_student code_dir (code_dir ++ s :: rest) (TDir c) = Err ValueError).
Proof.
  split; [|split].
  - intros H; unfold grade_next_student, relative_to; now rewrite H.
  - unfold grade_next_student, relative_to.
    pose proof (strip_prefix_app code_dir []) as E; rewrite app_nil_r in E.
    now rewrite E.
  - intros s rest Hs; unfold grade_next_student, relative_to.
    rewrite strip_prefix_app; cbn [bind first_part get_students].
    unfold index_r; rewrite (index_None _ _ Hs); reflexivity.
Qed.

Lemma grade_next_student_not_in_session_witness :
  grade_next_student Demo.home ["tmp"] (TDir Demo.c3) = Err ValueError /\
  grade_next_student Demo.home (Demo.home ++ ["notes.txt"]) (TDir Demo.c3) = Err ValueError.
Proof.
  destruct (grade_next_student_not_in_session Demo.home ["tmp"] (TDir Demo.c3) Demo.c3)
    as [H1 [_ H3]].
  split; [apply H1; reflexivity|].
  apply H3; simpl; intuition discriminate.
Defined.

(** ** Batch loops *)

Lemma create_loop_abort (ok : call -> bool) (root : path) (force : bool)
    (envs : list string) (l1 l2 : list string) (s : string) (store : list path) :
  (forall s', In s' l1 -> negb (mem (make_env_name s') envs) || force = true ->
              ok (CondaCreate (make_env_name s')) = true) ->
  negb (mem (make_env_name s) envs) || force = true ->
  ok (CondaCreate (make_env_name s)) = false ->
  create_loop ok root force envs (l1 ++ s :: l2) store
  = (fst (create_loop ok root force envs l1 store)
       ++ [Run (CondaCreate (make_env_name s)); Failed (CondaCreate (make_env_name s))],
     snd (create_loop ok root force envs l1 store)).
Proof.
  intros Hok Hs Hfail; revert store.
  induction l1 as [|s' l1 IH]; intros store; simpl.
  - now rewrite Hs, Hfail.
  - destruct (negb (mem (make_env_name s') envs) || force) eqn:E.
    + rewrite (Hok s' (or_introl eq_refl) E).
      rewrite IH by (intros x Hx Ex; apply Hok; [now right|exact Ex]).
      now destruct (create_loop ok root force envs l1 _).
    + apply IH; intros x Hx Ex; apply Hok; [now right|exact Ex].
Qed.

Lemma remove_loop_app (ok : call -> bool) (root : path) (envs : list string)
    (l1 l2 : list string) (store : list path) :
  remove_loop ok root envs (l1 ++ l2) store
  = (fst (remove_loop ok root envs l1 store)
       ++ fst (remove_loop ok root envs l2 (snd (remove_loop ok root envs l1 store))),
     snd (remove_loop ok root envs l2 (snd (remove_loop ok root envs l1 store)))).
Proof.
  revert store; induction l1 as [|s l1 IH]; intros store; simpl.
  - now destruct (remove_loop ok root envs l2 store).
  - destruct (mem (make_env_name s) envs); [|apply IH].
    destruct (ok (CondaRemove (make_env_name s))); rewrite IH;
      destruct (remove_loop ok root envs l1 _); reflexivity.
Qed.

Lemma install_loop_app (ok : call -> bool) (code_dir : path) (t : top)
    (envs l1 l2 : list string) :
  install_loop ok code_dir t envs (l1 ++ l2)
  = install_loop ok code_dir t envs l1 ++ install_loop ok code_dir t envs l2.
Proof.
  induction l1 as [|s l1 IH]; simpl; [reflexivity|].
  destruct (mem (make_env_name s) envs); [|exact IH].
  destruct (find_pyproject_toml code_dir t s); [|now rewrite IH].
  destruct (ok (PoetryInstall _ _)); [destruct (ok (HelpModules _))|]; now rewrite IH.
Qed.

(** C1: [env create] stops at the first failing [conda create]: the
    students after it are not touched (no command, no change to conda's
    store).  [env remove] and [env install] print a failure and go on: the
    commands for the students after the failing one are those a batch of
    these students alone would run.  On the roster [alice; bob; carol] with
    the manager failing for bob, [create] runs alice's and bob's commands
    and stops, [remove] and [install] also process carol. *)
Theorem batch_error_policy :
  (forall ok root force envs l1 s l2 store,
     (forall s', In s' l1 -> negb (mem (make_env_name s') envs) || force = true ->
                 ok (CondaCreate (make_env_name s')) = true) ->
     negb (mem (make_env_name s) envs) || force = true ->
     ok (CondaCreate (make_env_name s)) = false ->
     create_loop ok root force envs (l1 ++ s :: l2) store
     = (fst (create_loop ok root force envs l1 store)
          ++ [Run (CondaCreate (make_env_name s)); Failed (CondaCreate (make_env_name s))],
        snd (create_loop ok root force envs l1 store))) /\
  (forall ok root envs l1 s l2 store,
     mem (make_env_name s) envs = true ->
     ok (CondaRemove (make_env_name s)) = false ->
     fst (remove_loop ok root envs (l1 ++ s :: l2) store)
     = fst (remove_loop ok root envs l1 store)
         ++ [Run (CondaRemove (make_env_name s)); Failed (CondaRemove (make_env_name s))]
         ++ fst (remove_loop ok root envs l2 (snd (remove_loop ok root envs l1 store)))) /\
  (forall ok code_dir t envs l1 s l2 p,
     mem (make_env_name s) envs = true ->
     find_pyproject_toml code_dir t s = Some p ->
     let c1 := PoetryInstall (make_env_name s) (parent p) in
     let c2 := HelpModules (make_env_name s) in
     (ok c1 = false ->
        install_loop ok code_dir t envs (l1 ++ s :: l2)
        = install_loop ok code_dir t envs l1 ++ [Run c1; Failed c1]
            ++ install_loop ok code_dir t envs l2) /\
     (ok c1 = true -> ok c2 = false ->
        install_loop ok code_dir t envs (l1 ++ s :: l2)
        = install_loop ok code_dir t envs l1 ++ [Run c1; Run c2; Failed c2]
            ++ install_loop ok code_dir t envs l2)) /\
  create_environments Demo.fails_for_bob Demo.conda (TDir Demo.c3) false Demo.store_base
  = Ok ([Run (CondaCreate "env_alice"); Run (CondaCreate "env_bob");
         Failed (CondaCreate "env_bob")],
        Demo.store_base ++ [Demo.conda ++ ["envs"; "env_alice"]]) /\
  remove_environments Demo.fails_for_bob Demo.conda (TDir Demo.c3) Demo.store_all
  = Ok ([Run (CondaRemove "env_alice"); Run (CondaRemove "env_bob");
         Failed (CondaRemove "env_bob"); Run (CondaRemove "env_carol")],
        [Demo.conda; Demo.conda ++ ["envs"; "env_bob"]; Demo.conda ++ ["envs"; "scratch"]]) /\
  install_environments Demo.fails_for_bob Demo.home (TDir Demo.c3) Demo.store_all
  = Ok [Run (PoetryInstall "env_alice" (Demo.home ++ ["alice"])); Run (HelpModules "env_alice");
        Run (PoetryInstall "env_bob" (Demo.home ++ ["bob"; "hw"]));
        Failed (PoetryInstall "env_bob" (Demo.home ++ ["bob"; "hw"]));
        Run (PoetryInstall "env_carol" (Demo.home ++ ["carol"])); Run (HelpModules "env_carol")].
Proof.
  split; [intros ok root force envs l1 s l2 store; apply create_loop_abort|].
  split.
  { intros ok root envs l1 s l2 store Hm Hf.
    rewrite remove_loop_app; simpl; rewrite Hm, Hf.
    now destruct (remove_loop ok root envs l2 _). }
  split.
  { intros ok code_dir t envs l1 s l2 p Hm Hp c1 c2.
    split; intros Hc1; [|intros Hc2];
      rewrite install_loop_app; simpl; rewrite Hm, Hp; fold c1 c2;
      [rewrite Hc1|rewrite Hc1, Hc2]; reflexivity. }
  split; [reflexivity|split; reflexivity].
Qed.

Lemma batch_error_policy_witness :
  create_loop Demo.fails_for_bob Demo.conda false [] ["alice"; "bob"; "carol"] Demo.store_base
  = ([Run (CondaCreate "env_alice"); Run (CondaCreate "env_bob"); Failed (CondaCreate "env_bob")],
     Demo.store_base ++ [Demo.conda ++ ["envs"; "env_alice"]]).
Proof.
  pose proof (proj1 batch_error_policy Demo.fails_for_bob Demo.conda false []
                ["alice"] "bob" ["carol"] Demo.store_base) as H.
  refine (H _ eq_refl eq_refl).
  intros s' [<-|[]] _; reflexivity.
Defined.

(** ** Creating twice *)

Lemma count_creates_app (n : string) (a b : list event) :
  count_creates n (a ++ b) = count_creates n a + count_creates n b.
Proof. unfold count_creates; now rewrite filter_app, length_app. Qed.

Lemma env_of_prefix_created (root : path) (n : string) :
  env_of_prefix (root ++ ["envs"; n]) = Some n.
Proof. unfold env_of_prefix; now rewrite rev_app_distr. Qed.

Lemma In_get_all_environments (n : string) (store : list path) :
  In n (get_all_environments store) <-> exists p, In p store /\ env_of_prefix p = Some n.
Proof.
  unfold get_all_environments; rewrite in_flat_map; split.
  - intros [p [Hp Hn]]; exists p; split; [exact Hp|].
    destruct (env_of_prefix p); simpl in Hn; [destruct Hn as [->|[]]; reflexivity|contradiction].
  - intros [p [Hp Hn]]; exists p; split; [exact Hp|]; rewrite Hn; now left.
Qed.

Lemma conda_create_mono (root : path) (n : string) (p : path) (store : list path) :
  In p store -> In p (conda_effect root (CondaCreate n) store).
Proof.
  simpl; destruct in_dec; [auto|intros; apply in_or_app; now left].
Qed.

Lemma create_loop_cons (ok : call -> bool) (root : path) (force : bool)
    (envs : list string) (s : string) (rest : list string) (store : list path) :
  create_loop ok root force envs (s :: rest) store =
  if negb (mem (make_env_name s) envs) || force then
    if ok (CondaCreate (make_env_name s)) then
      (Run (CondaCreate (make_env_name s))
         :: fst (create_loop ok root force envs rest
                   (conda_effect root (CondaCreate (make_env_name s)) store)),
       snd (create_loop ok root force envs rest
              (conda_effect root (CondaCreate (make_env_name s)) store)))
    else ([Run (CondaCreate (make_env_name s)); Failed (CondaCreate (make_env_name s))], store)
  else create_loop ok root force envs rest store.
Proof.
  cbn [create_loop].
  destruct (negb (mem (make_env_name s) envs) || force); [|reflexivity].
  destruct (ok (CondaCreate (make_env_name s))); [|reflexivity].
  now destruct (create_loop ok root force envs rest _).
Qed.

Lemma count_creates_run (n m : string) (evs : list event) :
  count_creates n (Run (CondaCreate m) :: evs)
  = (if String.eqb m n then 1 else 0) + count_creates n evs.
Proof. unfold count_creates; cbn [filter]; now destruct (String.eqb m n). Qed.

Lemma count_creates_failed (n : string) (c : call) (evs : list event) :
  count_creates n (Failed c :: evs) = count_creates n evs.
Proof. reflexivity. Qed.

Lemma count_creates_nil (n : string) : count_creates n [] = 0.
Proof. reflexivity. Qed.

Ltac count_simpl :=
  cbn [fst snd];
  repeat first [ rewrite count_creates_run
               | rewrite count_creates_failed
               | rewrite count_creates_nil ].

Lemma create_loop_mono (ok : call -> bool) (root : path) (force : bool)
    (envs students : list string) (store : list path) (p : path) :
  In p store -> In p (snd (create_loop ok root force envs students store)).
Proof.
  revert store; induction students as [|s rest IH]; intros store Hp; [exact Hp|].
  rewrite create_loop_cons.
  destruct (negb (mem (make_env_name s) envs) || force); [|auto].
  destruct (ok _); [|exact Hp].
  apply IH, conda_create_mono, Hp.
Qed.

Lemma create_loop_count_absent (ok : call -> bool) (root : path) (force : bool)
    (envs students : list string) (store : list path) (s : string) :
  ~ In s students ->
  count_creates (make_env_name s) (fst (create_loop ok root force envs students store)) = 0.
Proof.
  revert store; induction students as [|s' rest IH]; intros store Hs; [reflexivity|].
  assert (Hne : String.eqb (make_env_name s') (make_env_name s) = false).
  { apply String.eqb_neq; intros E; apply make_env_name_inj in E; subst; apply Hs; now left. }
  assert (Hr : ~ In s rest) by (intros H; apply Hs; now right).
  rewrite create_loop_cons.
  destruct (negb (mem (make_env_name s') envs) || force); [|auto].
  destruct (ok _); count_simpl; rewrite ?Hne; [rewrite IH by exact Hr|]; reflexivity.
Qed.

Lemma create_loop_count_le (ok : call -> bool) (root : path) (force : bool)
    (envs students : list string) (store : list path) (s : string) :
  NoDup students ->
  count_creates (make_env_name s) (fst (create_loop ok root force envs students store)) <= 1.
Proof.
  revert store; induction students as [|s' rest IH]; intros store Hnd;
    [rewrite count_creates_nil; lia|].
  inversion Hnd as [|? ? Hs' Hrest]; subst.
  rewrite create_loop_cons.
  destruct (String.eqb_spec (make_env_name s') (make_env_name s)) as [E|Hne].
  - apply make_env_name_inj in E; subst s'.
    destruct (negb (mem (make_env_name s) envs) || force);
      [|rewrite (create_loop_count_absent ok root force envs rest _ s Hs'); lia].
    destruct (ok _); count_simpl; rewrite String.eqb_refl; [|lia].
    rewrite (create_loop_count_absent ok root force envs rest _ s Hs'); lia.
  - apply String.eqb_neq in Hne.
    destruct (negb (mem (make_env_name s') envs) || force); [|auto].
    destruct (ok _); count_simpl; rewrite Hne; [apply IH; exact Hrest|lia].
Qed.

Lemma create_loop_created (ok : call -> bool) (root : path) (force : bool)
    (envs students : list string) (store : list path) (n : string) :
  ok (CondaCreate n) = true ->
  1 <= count_creates n (fst (create_loop ok root force envs students store)) ->
  In (root ++ ["envs"; n]) (snd (create_loop ok root force envs students store)).
Proof.
  intros Hok; revert store; induction students as [|s rest IH]; intros store Hc;
    [rewrite count_creates_nil in Hc; lia|].
  rewrite create_loop_cons in *.
  destruct (negb (mem (make_env_name s) envs) || force); [|auto].
  destruct (ok (CondaCreate (make_env_name s))) eqn:Eok; cbn [fst snd] in *.
  - rewrite count_creates_run in Hc.
    destruct (String.eqb_spec (make_env_name s) n) as [<-|Hne].
    + apply create_loop_mono; simpl.
      destruct in_dec; [assumption|apply in_or_app; right; now left].
    + apply IH; exact Hc.
  - rewrite count_creates_run, count_creates_failed, count_creates_nil in Hc.
    destruct (String.eqb_spec (make_env_name s) n) as [<-|Hne]; [congruence|].
    simpl in Hc; lia.
Qed.

Lemma create_loop_count_listed (ok : call -> bool) (root : path)
    (envs students : list string) (store : list path) (s : string) :
  mem (make_env_name s) envs = true ->
  count_creates (make_env_name s) (fst (create_loop ok root false envs students store)) = 0.
Proof.
  intros Hm; revert store; induction students as [|s' rest IH]; intros store; [reflexivity|].
  rewrite create_loop_cons.
  destruct (String.eqb_spec (make_env_name s') (make_env_name s)) as [E|Hne].
  - rewrite E, Hm; apply IH.
  - apply String.eqb_neq in Hne.
    destruct (negb (mem (make_env_name s') envs) || false); [|apply IH].
    destruct (ok _); count_simpl; rewrite Hne; [apply IH|reflexivity].
Qed.

Lemma mem_created (root : path) (n : string) (store : list path) :
  In (root ++ ["envs"; n]) store -> mem n (get_all_environments store) = true.
Proof.
  intros H; apply mem_In, In_get_all_environments.
  exists (root ++ ["envs"; n]); split; [exact H|apply env_of_prefix_created].
Qed.

Lemma create_loop_store_new (ok : call -> bool) (root : path) (force : bool)
    (envs students : list string) (store : list path) (p : path) :
  In p (snd (create_loop ok root force envs students store)) ->
  In p store \/ exists n, ok (CondaCreate n) = true /\ p = root ++ ["envs"; n].
Proof.
  revert store; induction students as [|s rest IH]; intros store; [now left|].
  rewrite create_loop_cons.
  destruct (negb (mem (make_env_name s) envs) || force); [|apply IH].
  destruct (ok (CondaCreate (make_env_name s))) eqn:Eok; cbn [snd]; [|now left].
  intros H; destruct (IH _ H) as [Hin|Hnew]; [|now right].
  simpl in Hin; destruct in_dec; [now left|].
  apply in_app_or in Hin as [Hin|[<-|[]]]; [now left|].
  right; exists (make_env_name s); split; [exact Eok|reflexivity].
Qed.

Lemma create_loop_failed_absent (ok : call -> bool) (root : path) (force : bool)
    (envs students : list string) (store : list path) (n : string) :
  ok (CondaCreate n) = false ->
  mem n (get_all_environments store) = false ->
  mem n (get_all_environments (snd (create_loop ok root force envs students store))) = false.
Proof.
  intros Hok Hm.
  destruct (mem n (get_all_environments (snd _))) eqn:E; [|reflexivity].
  apply mem_In, In_get_all_environments in E as [p [Hp Hn]].
  destruct (create_loop_store_new ok root force envs students store p Hp) as [Hin|[m [Hm' ->]]].
  - rewrite <- Hm; symmetry; apply mem_In, In_get_all_environments; eauto.
  - rewrite env_of_prefix_created in Hn; injection Hn as ->; congruence.
Qed.

Lemma create_loop_count_reached (ok : call -> bool) (root : path)
    (envs students : list string) (store : list path) (s : string) :
  In s students -> NoDup students ->
  mem (make_env_name s) envs = false ->
  (forall s', s' <> s -> ok (CondaCreate (make_env_name s')) = true) ->
  count_creates (make_env_name s) (fst (create_loop ok root false envs students store)) = 1.
Proof.
  intros Hin Hnd Hm Hok; revert store; induction students as [|s' rest IH]; intros store;
    [contradiction|].
  inversion Hnd as [|? ? Hs' Hrest]; subst.
  rewrite create_loop_cons.
  destruct (String.eqb_spec s' s) as [->|Hne].
  - rewrite Hm; cbn [negb orb].
    destruct (ok (CondaCreate (make_env_name s))); count_simpl; rewrite String.eqb_refl;
      [|reflexivity].
    rewrite create_loop_count_absent by exact Hs'; reflexivity.
  - destruct Hin as [E|Hr]; [congruence|].
    assert (Hne' : String.eqb (make_env_name s') (make_env_name s) = false).
    { apply String.eqb_neq; intros E; apply make_env_name_inj in E; congruence. }
    destruct (negb (mem (make_env_name s') envs) || false); [|apply IH; assumption].
    rewrite (Hok s' Hne); count_simpl; rewrite Hne'; apply IH; assumption.
Qed.

Lemma create_twice_split (ok1 ok2 : call -> bool) (root : path) (c : codedir)
    (store : list path) (evs : list event) :
  create_twice ok1 ok2 root (TDir c) store = Ok evs ->
  let roster := sorted (dir_names c) in
  let r1 := create_loop ok1 root false (get_all_environments store) roster store in
  evs = fst r1 ++ fst (create_loop ok2 root false (get_all_environments (snd r1)) roster (snd r1)).
Proof.
  unfold create_twice, create_environments; cbn [bind get_students].
  intros H; injection H as <-; reflexivity.
Qed.

(** C3 (as stated, refuted): when [conda create] fails for the student,
    the environment is still missing and the second [env create] runs it
    again: two external create calls. *)
Lemma create_twice_failing_counterexample :
  create_twice Demo.never_ok Demo.never_ok Demo.conda (TDir [("alice", Demo.proj)]) Demo.store_base
  = Ok [Run (CondaCreate "env_alice"); Failed (CondaCreate "env_alice");
        Run (CondaCreate "env_alice"); Failed (CondaCreate "env_alice")] /\
  count_creates "env_alice"
    [Run (CondaCreate "env_alice"); Failed (CondaCreate "env_alice");
     Run (CondaCreate "env_alice"); Failed (CondaCreate "env_alice")] = 2.
Proof. split; reflexivity. Qed.

(** C3 (amended): without [--force], [env create] runs no [conda create]
    for a student whose environment conda already lists; two invocations
    run at most one [conda create] for the student as long as the first
    invocation's [conda create] for it, when run, succeeds; for a roster of
    that one student with no environment yet, exactly one.  When the first
    invocation's [conda create] for the student fails, the environment is
    still missing afterwards and the second invocation runs [conda create]
    for it again (the other students' creates succeeding, since a failed
    create ends a batch): two calls in all. *)
Theorem create_twice_at_most_once (ok1 ok2 : call -> bool) (root : path) (c : codedir)
    (s : string) (store : list path) (evs : list event) :
  wf_codedir c ->
  create_twice ok1 ok2 root (TDir c) store = Ok evs ->
  (ok1 (CondaCreate (make_env_name s)) = true ->
   count_creates (make_env_name s) evs <= 1) /\
  (mem (make_env_name s) (get_all_environments store) = true ->
   count_creates (make_env_name s) evs = 0) /\
  (ok1 (CondaCreate (make_env_name s)) = true ->
   dir_names c = [s] -> mem (make_env_name s) (get_all_environments store) = false ->
   count_creates (make_env_name s) evs = 1) /\
  (In s (dir_names c) -> mem (make_env_name s) (get_all_environments store) = false ->
   ok1 (CondaCreate (make_env_name s)) = false ->
   (forall s', s' <> s -> ok1 (CondaCreate (make_env_name s')) = true /\
                          ok2 (CondaCreate (make_env_name s')) = true) ->
   (forall r1, create_environments ok1 root (TDir c) false store = Ok r1 ->
      count_creates (make_env_name s) (fst r1) = 1 /\
      mem (make_env_name s) (get_all_environments (snd r1)) = false) /\
   count_creates (make_env_name s) evs = 2).
Proof.
  intros Hwf H.
  apply create_twice_split in H; cbv zeta in H; subst evs.
  set (roster := sorted (dir_names c)).
  set (r1 := create_loop ok1 root false (get_all_environments store) roster store).
  assert (Hnd : NoDup roster) by exact (roster_NoDup c Hwf).
  assert (Hsecond : ok1 (CondaCreate (make_env_name s)) = true ->
            1 <= count_creates (make_env_name s) (fst r1) ->
            count_creates (make_env_name s)
              (fst (create_loop ok2 root false (get_all_environments (snd r1)) roster (snd r1))) = 0).
  { intros Hok1 H1; apply create_loop_count_listed, (mem_created root).
    now apply create_loop_created. }
  rewrite count_creates_app; split; [|split; [|split]].
  - intros Hok1.
    assert (C1 : count_creates (make_env_name s) (fst r1) <= 1)
      by (apply create_loop_count_le, Hnd).
    assert (C2 : count_creates (make_env_name s)
                   (fst (create_loop ok2 root false (get_all_environments (snd r1)) roster (snd r1))) <= 1)
      by (apply create_loop_count_le, Hnd).
    destruct (count_creates (make_env_name s) (fst r1)) as [|[|k]] eqn:E; [lia| |lia].
    rewrite Hsecond by (auto; lia); lia.
  - intros Hm.
    assert (Hm' : mem (make_env_name s) (get_all_environments (snd r1)) = true).
    { apply mem_In, In_get_all_environments in Hm as [p [Hp Hn]].
      apply mem_In, In_get_all_environments; exists p; split; [|exact Hn].
      now apply create_loop_mono. }
    assert (E1 : count_creates (make_env_name s) (fst r1) = 0)
      by (apply create_loop_count_listed; exact Hm).
    assert (E2 : count_creates (make_env_name s)
                   (fst (create_loop ok2 root false (get_all_environments (snd r1)) roster (snd r1))) = 0)
      by (apply create_loop_count_listed; exact Hm').
    lia.
  - intros Hok1 Hd Hm.
    assert (Hr : roster = [s]) by (unfold roster; rewrite Hd; reflexivity).
    assert (H1 : count_creates (make_env_name s) (fst r1) = 1).
    { unfold r1; rewrite Hr, create_loop_cons, Hm; cbn [negb orb].
      rewrite Hok1; count_simpl; rewrite String.eqb_refl; reflexivity. }
    rewrite Hsecond by (auto; lia); lia.
  - intros Hin Hm Hf Hothers.
    assert (Hin' : In s roster)
      by (apply (Permutation_in _ (Permutation_sym (sorted_perm (dir_names c)))), Hin).
    assert (E1 : count_creates (make_env_name s) (fst r1) = 1).
    { apply create_loop_count_reached; auto; intros s' Hs'; apply Hothers, Hs'. }
    assert (Habs : mem (make_env_name s) (get_all_environments (snd r1)) = false)
      by (apply create_loop_failed_absent; assumption).
    assert (E2 : count_creates (make_env_name s)
                   (fst (create_loop ok2 root false (get_all_environments (snd r1)) roster (snd r1))) = 1).
    { apply create_loop_count_reached; auto; intros s' Hs'; apply Hothers, Hs'. }
    split; [|lia].
    intros r H; unfold create_environments in H; cbn [bind get_students] in H.
    injection H as <-; split; assumption.
Qed.

Lemma create_twice_at_most_once_witness :
  Demo.fails_for_bob (CondaCreate (make_env_name "alice")) = true /\
  count_creates (make_env_name "alice")
    [Run (CondaCreate "env_alice"); Run (CondaCreate "env_bob"); Failed (CondaCreate "env_bob");
     Run (CondaCreate "env_bob"); Failed (CondaCreate "env_bob")] <= 1 /\
  count_creates (make_env_name "bob")
    [Run (CondaCreate "env_alice"); Run (CondaCreate "env_bob"); Failed (CondaCreate "env_bob");
     Run (CondaCreate "env_bob"); Failed (CondaCreate "env_bob")] = 2.
Proof.
  split; [reflexivity|split].
  - refine (proj1 (create_twice_at_most_once Demo.fails_for_bob Demo.fails_for_bob Demo.conda
                     Demo.c3 "alice" Demo.store_base _ Demo_c3_wf eq_refl) _).
    reflexivity.
  - refine (proj2 (proj2 (proj2 (proj2 (create_twice_at_most_once Demo.fails_for_bob
              Demo.fails_for_bob Demo.conda Demo.c3 "bob" Demo.store_base _ Demo_c3_wf
              eq_refl))) _ _ _ _));
      [simpl; tauto|reflexivity|reflexivity|].
    intros s' Hs'; unfold Demo.fails_for_bob.
    destruct (String.eqb_spec (make_env_name s') "env_bob") as [E|E];
      [exfalso; apply Hs', make_env_name_inj, E|split; reflexivity].
Defined.

(** ** Unpacking *)

Lemma lookup_child_app (k : string) (c d : codedir) :
  lookup_child k (c ++ d)
  = match lookup_child k c with Some e => Some e | None => lookup_child k d end.
Proof.
  unfold lookup_child; induction c as [|[n e] c IH]; simpl; [reflexivity|].
  destruct (String.eqb n k); [reflexivity|exact IH].
Qed.

Lemma lookup_child_added (k : string) (c : codedir) (e : entry) :
  lookup_child k c = None -> lookup_child k (c ++ [(k, e)]) = Some e.
Proof.
  intros H; rewrite lookup_child_app, H; unfold lookup_child; simpl.
  now rewrite String.eqb_refl.
Qed.

Lemma unpack_loop_success (c c' : codedir) (subs : list submission) :
  unpack_loop c subs = (c', None) ->
  (forall k e, lookup_child k c = Some e -> lookup_child k c' = Some e) /\
  Forall (unpacked c') subs.
Proof.
  revert c; induction subs as [|sub rest IH]; intros c H; simpl in H.
  - injection H as <-; split; [auto|constructor].
  - destruct (student_of_filename (filename sub)) as [st|] eqn:Est; [|discriminate].
    destruct (lookup_child st c) as [[|files]|] eqn:Elk; [discriminate| |].
    + destruct (IH c H) as [Hpres Hall]; split; [exact Hpres|].
      constructor; [|exact Hall].
      exists st, files; split; [exact Est|now apply Hpres].
    + destruct (members sub) as [files|]; [|discriminate].
      destruct (IH _ H) as [Hpres Hall].
      split.
      * intros k e Hk; apply Hpres; rewrite lookup_child_app, Hk; reflexivity.
      * constructor; [|exact Hall].
        exists st, files; split; [exact Est|].
        apply Hpres, lookup_child_added, Elk.
Qed.

Lemma unpack_loop_all_unpacked (c : codedir) (subs : list submission) :
  Forall (unpacked c) subs -> unpack_loop c subs = (c, None).
Proof.
  induction 1 as [|sub rest [st [files [Est Elk]]] _ IH]; simpl; [reflexivity|].
  now rewrite Est, Elk.
Qed.

(** C4: a submission whose student directory already exists is skipped
    (no exception, no change), and an [unpack] that went through leaves a
    code directory that a second [unpack] of the same archives does not
    change. *)
Theorem unpack_idempotent :
  (forall c sub rest student files,
     student_of_filename (filename sub) = Some student ->
     lookup_child student c = Some (EDir files) ->
     unpack_loop c (sub :: rest) = unpack_loop c rest) /\
  (forall t subs c',
     uncompress_submissions t subs = (TDir c', None) ->
     uncompress_submissions (TDir c') subs = (TDir c', None)).
Proof.
  split.
  - intros c sub rest student files Est Elk; simpl; now rewrite Est, Elk.
  - intros t subs c' H; unfold uncompress_submissions in *.
    destruct (mkdir_exist_ok t) as [c|e]; [|discriminate].
    destruct (unpack_loop c subs) as [c'' e] eqn:E.
    injection H as -> ->.
    apply unpack_loop_success in E as [_ Hall]; simpl.
    now rewrite (unpack_loop_all_unpacked c' subs Hall).
Qed.

Lemma unpack_idempotent_witness :
  uncompress_submissions TAbsent Demo.subs
  = (TDir [("alice", EDir [["pyproject.toml"]; ["main.py"]]); ("bob", EDir [["hw"; "pyproject.toml"]])], None) /\
  uncompress_submissions
    (TDir [("alice", EDir [["pyproject.toml"]; ["main.py"]]); ("bob", EDir [["hw"; "pyproject.toml"]])]) Demo.subs
  = (TDir [("alice", EDir [["pyproject.toml"]; ["main.py"]]); ("bob", EDir [["hw"; "pyproject.toml"]])], None).
Proof.
  assert (H : uncompress_submissions TAbsent Demo.subs
    = (TDir [("alice", EDir [["pyproject.toml"]; ["main.py"]]); ("bob", EDir [["hw"; "pyproject.toml"]])], None))
    by reflexivity.
  split; [exact H|exact (proj2 unpack_idempotent _ _ _ H)].
Defined.

(** C5: [re.match] returns [None] on a file name without a leading
    lowercase token and an underscore, and [None.group] raises: the batch
    stops there with an [AttributeError], the later archives are not
    extracted, and no diagnostic names the skipped file. *)
Theorem unpack_unrecognized_aborts :
  (forall c sub rest,
     student_of_filename (filename sub) = None ->
     unpack_loop c (sub :: rest) = (c, Some AttributeError)) /\
  uncompress_submissions (TDir [])
    ({| filename := "Alice_hw1.zip"; members := Some [["pyproject.toml"]] |} :: Demo.subs)
  = (TDir [], Some AttributeError).
Proof.
  split; [intros c sub rest H; simpl; now rewrite H|reflexivity].
Qed.

Lemma unpack_unrecognized_aborts_witness :
  student_of_filename "Alice_hw1.zip" = None /\
  unpack_loop [] ({| filename := "Alice_hw1.zip"; members := Some [] |} :: Demo.subs)
  = ([], Some AttributeError).
Proof.
  split; [reflexivity|].
  apply (proj1 unpack_unrecognized_aborts); reflexivity.
Defined.

(** C10 (as stated, refuted): when the code directory's path holds a
    regular file, [mkdir(exist_ok=True)] raises [FileExistsError]; when
    its parent directory is missing, [mkdir] (without [parents=True])
    raises [FileNotFoundError]; in both cases no code directory is
    established. *)
Lemma unpack_code_dir_is_file :
  uncompress_submissions TFile Demo.subs = (TFile, Some FileExistsError) /\
  uncompress_submissions TNoParent Demo.subs = (TNoParent, Some FileNotFoundError).
Proof. split; reflexivity. Qed.

(** C10 (amended): [unpack] creates the code directory when nothing is at
    its path and its parent directory exists, and starts extracting into
    the new, empty directory; it keeps an existing directory; it fails with
    [FileNotFoundError] when the parent directory is missing and with
    [FileExistsError] when a regular file is at that path, leaving the path
    as it was; [get_students] instead fails on a missing code directory. *)
Theorem unpack_establishes_code_dir (subs : list submission) :
  uncompress_submissions TAbsent subs
  = (TDir (fst (unpack_loop [] subs)), snd (unpack_loop [] subs)) /\
  (forall c, uncompress_submissions (TDir c) subs
             = (TDir (fst (unpack_loop c subs)), snd (unpack_loop c subs))) /\
  uncompress_submissions TNoParent subs = (TNoParent, Some FileNotFoundError) /\
  uncompress_submissions TFile subs = (TFile, Some FileExistsError) /\
  get_students TAbsent = Err FileNotFoundError /\
  get_students TNoParent = Err FileNotFoundError.
Proof.
  unfold uncompress_submissions; simpl.
  split; [now destruct (unpack_loop [] subs)|].
  split; [intros c; now destruct (unpack_loop c subs)|].
  repeat split.
Qed.

(** * Further properties of the code *)

(** ** Helpers *)

Lemma rev_seq_S (m : nat) : rev (seq 0 (S m)) = m :: rev (seq 0 m).
Proof. rewrite seq_S, rev_app_distr; reflexivity. Qed.

Lemma first_config_spec (exists_ : path -> bool) (g : nat -> path) (m : nat) :
  (forall p, first_config exists_ (map g (rev (seq 0 m))) = Some p ->
     exists k, k < m /\ p = g k ++ [CONFIG_FILE] /\ exists_ p = true /\
       forall k', k < k' < m -> exists_ (g k' ++ [CONFIG_FILE]) = false) /\
  (first_config exists_ (map g (rev (seq 0 m))) = None ->
     forall k, k < m -> exists_ (g k ++ [CONFIG_FILE]) = false).
Proof.
  induction m as [|m [IHs IHn]].
  - split; [discriminate|intros _ k Hk; lia].
  - rewrite rev_seq_S; cbn [map first_config].
    destruct (exists_ (g m ++ [CONFIG_FILE])) eqn:E.
    + split; [|discriminate].
      intros p Hp; injection Hp as <-; exists m; repeat split; auto; intros; lia.
    + split.
      * intros p Hp; destruct (IHs p Hp) as (k & Hk & -> & Hex & Hmax).
        exists k; split; [lia|]; split; [reflexivity|]; split; [exact Hex|].
        intros k' Hk'; destruct (Nat.eq_dec k' m) as [->|]; [exact E|apply Hmax; lia].
      * intros Hn k Hk.
        destruct (Nat.eq_dec k m) as [->|]; [exact E|apply IHn; auto; lia].
Qed.

Lemma find_config_file_spec (exists_ : path -> bool) (cwd : path) :
  (forall p, find_config_file exists_ cwd = Some p ->
     exists k, k <= List.length cwd /\ p = firstn k cwd ++ [CONFIG_FILE] /\
       exists_ p = true /\
       forall k', k < k' <= List.length cwd -> exists_ (firstn k' cwd ++ [CONFIG_FILE]) = false) /\
  (find_config_file exists_ cwd = None ->
     forall k, k <= List.length cwd -> exists_ (firstn k cwd ++ [CONFIG_FILE]) = false).
Proof.
  unfold find_config_file, self_and_parents.
  destruct (first_config_spec exists_ (fun n => firstn n cwd) (S (List.length cwd))) as [Hs Hn].
  split.
  - intros p Hp; destruct (Hs p Hp) as (k & Hk & Hp' & Hex & Hmax).
    exists k; split; [lia|]; split; [exact Hp'|]; split; [exact Hex|].
    intros k' Hk'; apply Hmax; lia.
  - intros H k Hk; apply Hn; auto; lia.
Qed.

Lemma find_config_here (exists_ : path -> bool) (cwd : path) :
  exists_ (cwd ++ [CONFIG_FILE]) = true ->
  find_config_file exists_ cwd = Some (cwd ++ [CONFIG_FILE]).
Proof.
  intros H; unfold find_config_file, self_and_parents.
  rewrite rev_seq_S; cbn [map first_config].
  rewrite firstn_all, H; reflexivity.
Qed.

Lemma find_config_file_at (exists_ : path -> bool) (cwd : path) (k : nat) :
  k <= List.length cwd ->
  exists_ (firstn k cwd ++ [CONFIG_FILE]) = true ->
  (forall k', k < k' <= List.length cwd -> exists_ (firstn k' cwd ++ [CONFIG_FILE]) = false) ->
  find_config_file exists_ cwd = Some (firstn k cwd ++ [CONFIG_FILE]).
Proof.
  intros Hk Hex Hmax.
  destruct (find_config_file_spec exists_ cwd) as [Hs Hn].
  destruct (find_config_file exists_ cwd) as [p'|] eqn:E.
  - destruct (Hs p' eq_refl) as (k2 & Hk2 & -> & Hex2 & Hmax2).
    destruct (Nat.lt_trichotomy k k2) as [Hlt|[->|Hlt]].
    + rewrite Hmax in Hex2 by lia; discriminate.
    + reflexivity.
    + rewrite Hmax2 in Hex by lia; discriminate.
  - rewrite (Hn eq_refl k Hk) in Hex; discriminate.
Qed.

Lemma env_of_prefix_inv (p : path) (n : string) :
  env_of_prefix p = Some n -> exists q, p = q ++ ["envs"; n].
Proof.
  unfold env_of_prefix; intros H.
  destruct (rev p) as [|a [|b r]] eqn:E; try discriminate.
  assert (b = "envs"%string /\ a = n) as [-> ->].
  { clear E; repeat match goal with
                    | H : context [match ?x with _ => _ end] |- _ => destruct x
                    end; try discriminate; injection H as ->; split; reflexivity. }
  exists (rev r); rewrite <- (rev_involutive p), E; simpl.
  rewrite <- app_assoc; reflexivity.
Qed.

Lemma runs_run (c : call) (evs : list event) : runs (Run c :: evs) = c :: runs evs.
Proof. reflexivity. Qed.

Lemma runs_failed (c : call) (evs : list event) : runs (Failed c :: evs) = runs evs.
Proof. reflexivity. Qed.

Lemma runs_no_manifest (s : string) (evs : list event) : runs (NoManifest s :: evs) = runs evs.
Proof. reflexivity. Qed.

Lemma span_lower_app (s rest : string) :
  all_lower s = true -> span_lower (s ++ String "_" rest) = (s, String "_" rest).
Proof.
  induction s as [|ch s IH]; simpl; [reflexivity|].
  intros H; apply andb_prop in H as [H1 H2]; rewrite H1, IH by exact H2; reflexivity.
Qed.

Lemma span_lower_inv (f a b : string) :
  span_lower f = (a, b) -> f = (a ++ b)%string /\ all_lower a = true.
Proof.
  revert a b; induction f as [|ch f IH]; intros a b; simpl.
  - intros H; injection H as <- <-; split; reflexivity.
  - destruct (is_lower ch) eqn:E.
    + destruct (span_lower f) as [a' b'] eqn:E'; intros H; injection H as <- <-.
      destruct (IH a' b' eq_refl) as [-> Hl]; simpl; rewrite E, Hl; split; reflexivity.
    + intros H; injection H as <- <-; split; reflexivity.
Qed.

(** ** Environment names *)

(** X1: [make_env_name] tells students apart: two students get the same
    environment name only if they are the same student, and every name
    starts with ["env_"]. *)
Theorem make_env_name_distinct (a b : string) :
  (make_env_name a = make_env_name b <-> a = b) /\
  String.prefix "env_" (make_env_name a) = true.
Proof.
  split; [split; [apply make_env_name_inj|intros ->; reflexivity]|].
  apply make_env_name_prefix.
Qed.

(** X5: [get_all_environments] lists a name exactly when some prefix
    reported by conda is that name inside a directory called [envs]; the
    base installation and prefixes elsewhere are left out. *)
Theorem get_all_environments_in_envs (store : list path) (n : string) :
  In n (get_all_environments store) <-> exists q, In (q ++ ["envs"; n]) store.
Proof.
  rewrite In_get_all_environments; split.
  - intros [p [Hp Hn]]; destruct (env_of_prefix_inv p n Hn) as [q ->]; eauto.
  - intros [q Hq]; exists (q ++ ["envs"; n]); split; [exact Hq|apply env_of_prefix_created].
Qed.

(** ** Configuration lookup *)

(** X2: [find_config_file] returns the [grading.toml] of the nearest
    directory among the working directory and its parents that has one: the
    result is [firstn k cwd / grading.toml] for the largest such [k]; it
    returns [None] exactly when none of them has one. *)
Theorem find_config_file_nearest (exists_ : path -> bool) (cwd : path) :
  (forall p, find_config_file exists_ cwd = Some p <->
     exists k, k <= List.length cwd /\ p = firstn k cwd ++ [CONFIG_FILE] /\
       exists_ p = true /\
       forall k', k < k' <= List.length cwd -> exists_ (firstn k' cwd ++ [CONFIG_FILE]) = false) /\
  (find_config_file exists_ cwd = None <->
     forall k, k <= List.length cwd -> exists_ (firstn k cwd ++ [CONFIG_FILE]) = false).
Proof.
  destruct (find_config_file_spec exists_ cwd) as [Hs Hn].
  split.
  - intros p; split; [apply Hs|].
    intros (k & Hk & -> & Hex & Hmax).
    destruct (find_config_file exists_ cwd) as [p'|] eqn:E.
    + destruct (Hs p' eq_refl) as (k2 & Hk2 & -> & Hex2 & Hmax2).
      destruct (Nat.lt_trichotomy k k2) as [Hlt|[->|Hlt]].
      * rewrite Hmax in Hex2 by lia; discriminate.
      * reflexivity.
      * rewrite Hmax2 in Hex by lia; discriminate.
    + rewrite (Hn eq_refl k Hk) in Hex; discriminate.
  - split; [apply Hn|].
    intros Hall; destruct (find_config_file exists_ cwd) as [p|] eqn:E; [|reflexivity].
    destruct (Hs p eq_refl) as (k & Hk & -> & Hex & _).
    rewrite Hall in Hex by exact Hk; discriminate.
Qed.

Lemma find_config_file_nearest_witness :
  find_config_file Demo.ta_config (Demo.home ++ ["alice"]) = Some ["home"; CONFIG_FILE].
Proof.
  apply (proj2 (proj1 (find_config_file_nearest Demo.ta_config (Demo.home ++ ["alice"])) _)).
  exists 1; split; [simpl; lia|]; split; [reflexivity|]; split; [reflexivity|].
  intros k' Hk'; simpl in Hk'.
  destruct k' as [|[|[|[|[|k']]]]]; try lia; reflexivity.
Defined.

(** X3: [init] writes [grading.toml] into the working directory when no
    configuration is found from there; afterwards the lookup finds that
    file, so a second [init] writes nothing.  When a configuration is
    found, [init] writes nothing. *)
Theorem init_creates_config (exists_ : path -> bool) (cwd : path) :
  (find_config_file exists_ cwd = None ->
     init exists_ cwd = Some (cwd ++ [CONFIG_FILE]) /\
     find_config_file (add_file exists_ (cwd ++ [CONFIG_FILE])) cwd = Some (cwd ++ [CONFIG_FILE]) /\
     init (add_file exists_ (cwd ++ [CONFIG_FILE])) cwd = None) /\
  (forall p, find_config_file exists_ cwd = Some p -> init exists_ cwd = None).
Proof.
  split.
  - intros Hn.
    assert (Hf : find_config_file (add_file exists_ (cwd ++ [CONFIG_FILE])) cwd
                 = Some (cwd ++ [CONFIG_FILE])).
    { apply find_config_here; unfold add_file.
      destruct list_eq_dec as [_|Hne]; [reflexivity|congruence]. }
    unfold init; rewrite Hn, Hf; split; [reflexivity|split; reflexivity].
  - intros p Hp; unfold init; rewrite Hp; reflexivity.
Qed.

Lemma init_creates_config_witness :
  init (fun _ => false) Demo.home = Some (Demo.home ++ [CONFIG_FILE]) /\
  init (add_file (fun _ => false) (Demo.home ++ [CONFIG_FILE])) Demo.home = None.
Proof.
  destruct (proj1 (init_creates_config (fun _ => false) Demo.home) eq_refl) as [H1 [_ H3]].
  split; [exact H1|exact H3].
Defined.

(** X4: the [cli] group lets [init] run without a configuration.  Any
    other subcommand aborts exactly when no directory from the working
    directory up to the root has a [grading.toml]; otherwise it reads the
    configuration of the nearest such directory and runs with that
    directory as grading home, or fails with the exception reading or
    parsing that file raises. *)
Theorem cli_requires_config {Config : Type} (load : path -> result Config)
    (exists_ : path -> bool) (cwd : path) :
  cli load exists_ cwd "init" = CliInit /\
  forall sub, sub <> "init"%string ->
    (cli load exists_ cwd sub = CliAbort <->
       forall k, k <= List.length cwd -> exists_ (firstn k cwd ++ [CONFIG_FILE]) = false) /\
    (forall k, k <= List.length cwd ->
       exists_ (firstn k cwd ++ [CONFIG_FILE]) = true ->
       (forall k', k < k' <= List.length cwd -> exists_ (firstn k' cwd ++ [CONFIG_FILE]) = false) ->
       cli load exists_ cwd sub
       = match load (firstn k cwd ++ [CONFIG_FILE]) with
         | Ok config => CliRun config (firstn k cwd)
         | Err e => CliFail e
         end).
Proof.
  split; [reflexivity|].
  intros sub Hsub; unfold cli; cbv zeta.
  apply String.eqb_neq in Hsub; rewrite Hsub.
  destruct (find_config_file_spec exists_ cwd) as [Hs Hn].
  split.
  - destruct (find_config_file exists_ cwd) as [p|] eqn:E.
    + destruct (Hs p eq_refl) as (k & Hk & -> & Hex & _).
      split; [cbn [read_config]; destruct (load _); discriminate|].
      intros Hall; rewrite Hall in Hex by exact Hk; discriminate.
    + split; [intros _; exact (Hn eq_refl)|reflexivity].
  - intros k Hk Hex Hmax.
    rewrite (find_config_file_at exists_ cwd k Hk Hex Hmax); cbn [read_config].
    unfold parent; rewrite removelast_last; reflexivity.
Qed.

Lemma cli_requires_config_witness :
  cli (fun _ => Ok tt) Demo.ta_config (Demo.home ++ ["alice"]) "next"
  = CliRun tt ["home"].
Proof.
  apply (proj2 (proj2 (cli_requires_config (fun _ => Ok tt) Demo.ta_config
                         (Demo.home ++ ["alice"])) "next"%string ltac:(discriminate)) 1);
    [simpl; lia|reflexivity|].
  intros k' Hk'; simpl in Hk'.
  destruct k' as [|[|[|[|[|k']]]]]; try lia; reflexivity.
Defined.

(** ** Batch commands *)

(** X6: [env remove] runs [conda env remove] once for every roster student
    whose environment was listed, in roster order, whatever earlier
    removals did; it runs nothing else, and it prints an error for exactly
    the removals that fail. *)
Theorem remove_runs_every_listed (ok : call -> bool) (root : path)
    (envs students : list string) (store : list path) :
  runs (fst (remove_loop ok root envs students store))
  = map CondaRemove (filter (fun n => mem n envs) (map make_env_name students)) /\
  (forall c, In (Failed c) (fst (remove_loop ok root envs students store)) <->
             In c (runs (fst (remove_loop ok root envs students store))) /\ ok c = false).
Proof.
  revert store; induction students as [|s rest IH]; intros store.
  - simpl; split; [reflexivity|intros c; tauto].
  - cbn [remove_loop map filter].
    destruct (mem (make_env_name s) envs) eqn:Em; [|apply IH].
    destruct (ok (CondaRemove (make_env_name s))) eqn:Eo.
    + destruct (IH (conda_effect root (CondaRemove (make_env_name s)) store)) as [Hr Hf].
      destruct (remove_loop ok root envs rest _) as [evs st]; cbn [fst] in *.
      rewrite runs_run, Hr; split; [reflexivity|].
      intros c; cbn [In]; rewrite Hf, <- Hr; split.
      * intros [H|[H1 H2]]; [discriminate|tauto].
      * intros [[<-|H1] H2]; [congruence|tauto].
    + destruct (IH store) as [Hr Hf].
      destruct (remove_loop ok root envs rest store) as [evs st]; cbn [fst] in *.
      rewrite runs_run, runs_failed, Hr; split; [reflexivity|].
      intros c; cbn [In]; rewrite Hf, <- Hr; split.
      * intros [H|[H|[H1 H2]]]; [discriminate|injection H as <-; tauto|tauto].
      * intros [[<-|H1] H2]; [tauto|tauto].
Qed.

(** X7: [env create] runs [conda create] for the roster students whose
    environment was not listed (every student with [--force]), in roster
    order, up to and including the first one that fails, and nothing
    after it; it prints an error for exactly the create that failed. *)
Theorem create_runs_until_failure (ok : call -> bool) (root : path) (force : bool)
    (envs students : list string) (store : list path) :
  runs (fst (create_loop ok root force envs students store))
  = take_through ok (map CondaCreate
                       (filter (fun n => negb (mem n envs) || force) (map make_env_name students))) /\
  (forall c, In (Failed c) (fst (create_loop ok root force envs students store)) <->
             In c (runs (fst (create_loop ok root force envs students store))) /\ ok c = false).
Proof.
  revert store; induction students as [|s rest IH]; intros store.
  - simpl; split; [reflexivity|intros c; tauto].
  - rewrite create_loop_cons; cbn [map filter].
    destruct (negb (mem (make_env_name s) envs) || force); [|apply IH].
    cbn [map take_through].
    destruct (ok (CondaCreate (make_env_name s))) eqn:Eo.
    + destruct (IH (conda_effect root (CondaCreate (make_env_name s)) store)) as [Hr Hf].
      cbn [fst]; rewrite runs_run, Hr; split; [reflexivity|].
      intros c; cbn [In]; rewrite Hf, <- Hr; split.
      * intros [H|[H1 H2]]; [discriminate|tauto].
      * intros [[<-|H1] H2]; [congruence|tauto].
    + cbn [fst]; split; [reflexivity|].
      intros c; cbn [In runs flat_map app]; split.
      * intros [H|[H|[]]]; [discriminate|injection H as <-; tauto].
      * intros [[<-|[]] H2]; tauto.
Qed.

Lemma import_after_cons (ok : call -> bool) (e : event) (evs : list event) :
  (forall n, e <> Run (HelpModules n)) ->
  (forall i n, nth_error evs i = Some (Run (HelpModules n)) ->
     exists d, 0 < i /\ nth_error evs (i - 1) = Some (Run (PoetryInstall n d)) /\
       ok (PoetryInstall n d) = true) ->
  (forall i n, nth_error (e :: evs) i = Some (Run (HelpModules n)) ->
     exists d, 0 < i /\ nth_error (e :: evs) (i - 1) = Some (Run (PoetryInstall n d)) /\
       ok (PoetryInstall n d) = true).
Proof.
  intros He H [|i] n Hi; cbn [nth_error] in Hi.
  - injection Hi as Hi; exfalso; exact (He n Hi).
  - destruct (H i n Hi) as (d & Hpos & Hd & Hok); exists d.
    split; [lia|split; [|exact Hok]].
    destruct i as [|i]; [lia|].
    replace (S (S i) - 1) with (S i) by lia; replace (S i - 1) with i in Hd by lia.
    exact Hd.
Qed.

Lemma import_after_pair (ok : call -> bool) (n : string) (d : path) (evs : list event) :
  ok (PoetryInstall n d) = true ->
  (forall i m, nth_error evs i = Some (Run (HelpModules m)) ->
     exists d', 0 < i /\ nth_error evs (i - 1) = Some (Run (PoetryInstall m d')) /\
       ok (PoetryInstall m d') = true) ->
  (forall i m, nth_error (Run (PoetryInstall n d) :: Run (HelpModules n) :: evs) i
               = Some (Run (HelpModules m)) ->
     exists d', 0 < i /\
       nth_error (Run (PoetryInstall n d) :: Run (HelpModules n) :: evs) (i - 1)
       = Some (Run (PoetryInstall m d')) /\
       ok (PoetryInstall m d') = true).
Proof.
  intros Hok H [|[|i]] m Hi; cbn [nth_error] in Hi.
  - discriminate Hi.
  - injection Hi as <-; exists d; split; [lia|split; [reflexivity|exact Hok]].
  - destruct (H i m Hi) as (d' & Hpos & Hd & Hok'); exists d'.
    split; [lia|split; [|exact Hok']].
    destruct i as [|i]; [lia|].
    replace (S (S (S i)) - 1) with (S (S i)) by lia; replace (S i - 1) with i in Hd by lia.
    exact Hd.
Qed.

Lemma install_import_after (ok : call -> bool) (code_dir : path) (t : top)
    (envs students : list string) :
  forall i n, nth_error (install_loop ok code_dir t envs students) i = Some (Run (HelpModules n)) ->
    exists d, 0 < i /\
      nth_error (install_loop ok code_dir t envs students) (i - 1)
      = Some (Run (PoetryInstall n d)) /\
      ok (PoetryInstall n d) = true.
Proof.
  induction students as [|s rest IH]; [intros [|i] n H; discriminate H|].
  cbn [install_loop].
  destruct (mem (make_env_name s) envs); [|exact IH].
  destruct (find_pyproject_toml code_dir t s) as [p|].
  2:{ apply import_after_cons; [intros ?; discriminate|exact IH]. }
  destruct (ok (PoetryInstall (make_env_name s) (parent p))) eqn:E1;
    [destruct (ok (HelpModules (make_env_name s)))|].
  - apply import_after_pair; assumption.
  - apply import_after_pair; [assumption|].
    apply import_after_cons; [intros ?; discriminate|exact IH].
  - apply import_after_cons; [intros ?; discriminate|].
    apply import_after_cons; [intros ?; discriminate|exact IH].
Qed.

Lemma install_loop_targets (ok : call -> bool) (code_dir : path) (t : top)
    (envs students : list string) :
  (forall n d, In (Run (PoetryInstall n d)) (install_loop ok code_dir t envs students) ->
     exists s p, In s students /\ n = make_env_name s /\ mem n envs = true /\
       find_pyproject_toml code_dir t s = Some p /\ d = parent p) /\
  (forall n, In (Run (HelpModules n)) (install_loop ok code_dir t envs students) ->
     exists d, In (Run (PoetryInstall n d)) (install_loop ok code_dir t envs students) /\
       ok (PoetryInstall n d) = true) /\
  (forall n, ~ In (Run (CondaCreate n)) (install_loop ok code_dir t envs students) /\
             ~ In (Run (CondaRemove n)) (install_loop ok code_dir t envs students)).
Proof.
  induction students as [|s rest [IH1 [IH2 IH3]]].
  - simpl; split; [tauto|split; [tauto|intros n; tauto]].
  - cbn [install_loop].
    destruct (mem (make_env_name s) envs) eqn:Em.
    2:{ split; [|split; [|exact IH3]].
        - intros n d H; destruct (IH1 n d H) as (s' & p & H1 & H2); exists s', p.
          split; [now right|exact H2].
        - exact IH2. }
    destruct (find_pyproject_toml code_dir t s) as [p|] eqn:Ep.
    2:{ split; [|split].
        - intros n d [H|H]; [discriminate|].
          destruct (IH1 n d H) as (s' & p & H1 & H2); exists s', p.
          split; [now right|exact H2].
        - intros n [H|H]; [discriminate|].
          destruct (IH2 n H) as [d [Hd Hok]]; exists d; split; [now right|exact Hok].
        - intros n; split; intros [H|H]; try discriminate; destruct (IH3 n) as [Hc Hr]; first [exact (Hc H)|exact (Hr H)]. }
    set (c1 := PoetryInstall (make_env_name s) (parent p)).
    assert (Hhead : forall n d, Run c1 = Run (PoetryInstall n d) ->
              exists s0 p0, In s0 (s :: rest) /\ n = make_env_name s0 /\ mem n envs = true /\
                find_pyproject_toml code_dir t s0 = Some p0 /\ d = parent p0).
    { intros n d H; injection H as <- <-; exists s, p; split; [now left|].
      split; [reflexivity|split; [exact Em|split; [exact Ep|reflexivity]]]. }
    assert (Htail : forall n d, In (Run (PoetryInstall n d)) (install_loop ok code_dir t envs rest) ->
              exists s0 p0, In s0 (s :: rest) /\ n = make_env_name s0 /\ mem n envs = true /\
                find_pyproject_toml code_dir t s0 = Some p0 /\ d = parent p0).
    { intros n d H; destruct (IH1 n d H) as (s' & p' & H1 & H2); exists s', p'.
      split; [now right|exact H2]. }
    destruct (ok c1) eqn:E1; [destruct (ok (HelpModules (make_env_name s))) eqn:E2|].
    + split; [|split].
      * intros n d [H|[H|H]]; [exact (Hhead n d H)|discriminate|exact (Htail n d H)].
      * intros n [H|[H|H]]; [discriminate|injection H as <-|].
        -- exists (parent p); split; [now left|exact E1].
        -- destruct (IH2 n H) as [d [Hd Hok]]; exists d; split; [cbn [In]; tauto|exact Hok].
      * intros n; split; intros [H|[H|H]]; try discriminate; destruct (IH3 n) as [Hc Hr]; first [exact (Hc H)|exact (Hr H)].
    + split; [|split].
      * intros n d [H|[H|[H|H]]]; [exact (Hhead n d H)|discriminate|discriminate|exact (Htail n d H)].
      * intros n [H|[H|[H|H]]]; [discriminate|injection H as <-|discriminate|].
        -- exists (parent p); split; [now left|exact E1].
        -- destruct (IH2 n H) as [d [Hd Hok]]; exists d; split; [cbn [In]; tauto|exact Hok].
      * intros n; split; intros [H|[H|[H|H]]]; try discriminate; destruct (IH3 n) as [Hc Hr]; first [exact (Hc H)|exact (Hr H)].
    + split; [|split].
      * intros n d [H|[H|H]]; [exact (Hhead n d H)|discriminate|exact (Htail n d H)].
      * intros n [H|[H|H]]; [discriminate|discriminate|].
        destruct (IH2 n H) as [d [Hd Hok]]; exists d; split; [cbn [In]; tauto|exact Hok].
      * intros n; split; intros [H|[H|H]]; try discriminate; destruct (IH3 n) as [Hc Hr]; first [exact (Hc H)|exact (Hr H)].
Qed.

(** X8: [env install] runs only [poetry install] and the import check, and
    only for roster students whose environment was listed and whose
    manifest was found: [poetry install] runs in the manifest's directory,
    and every import check comes right after a [poetry install] of the
    same environment that succeeded.  It never creates or removes an
    environment. *)
Theorem install_commands_targets (ok : call -> bool) (code_dir : path) (t : top)
    (envs students : list string) :
  (forall n d, In (Run (PoetryInstall n d)) (install_loop ok code_dir t envs students) ->
     exists s p, In s students /\ n = make_env_name s /\ mem n envs = true /\
       find_pyproject_toml code_dir t s = Some p /\ d = parent p) /\
  (forall i n, nth_error (install_loop ok code_dir t envs students) i = Some (Run (HelpModules n)) ->
     exists d, 0 < i /\
       nth_error (install_loop ok code_dir t envs students) (i - 1)
       = Some (Run (PoetryInstall n d)) /\
       ok (PoetryInstall n d) = true) /\
  (forall n, ~ In (Run (CondaCreate n)) (install_loop ok code_dir t envs students) /\
             ~ In (Run (CondaRemove n)) (install_loop ok code_dir t envs students)).
Proof.
  destruct (install_loop_targets ok code_dir t envs students) as [H1 [_ H3]].
  split; [exact H1|split; [apply install_import_after|exact H3]].
Qed.

Lemma install_commands_targets_witness :
  exists d, 0 < 1 /\
    nth_error (install_loop Demo.fails_for_bob Demo.home (TDir Demo.c3)
                 (get_all_environments Demo.store_all) ["alice"; "bob"; "carol"]) (1 - 1)
    = Some (Run (PoetryInstall "env_alice" d)) /\
    Demo.fails_for_bob (PoetryInstall "env_alice" d) = true.
Proof.
  apply (proj1 (proj2 (install_commands_targets Demo.fails_for_bob Demo.home (TDir Demo.c3)
                         (get_all_environments Demo.store_all) ["alice"; "bob"; "carol"]))).
  reflexivity.
Defined.

(** X9: [env install] reports a missing manifest for a student exactly
    when the student is on the roster, its environment was listed, and no
    [pyproject.toml] is found in its directory. *)
Theorem install_no_manifest (ok : call -> bool) (code_dir : path) (t : top)
    (envs students : list string) (s : string) :
  In (NoManifest s) (install_loop ok code_dir t envs students) <->
  In s students /\ mem (make_env_name s) envs = true /\ find_pyproject_toml code_dir t s = None.
Proof.
  induction students as [|s0 rest IH]; [simpl; tauto|].
  cbn [install_loop In].
  destruct (mem (make_env_name s0) envs) eqn:Em.
  - destruct (find_pyproject_toml code_dir t s0) as [p|] eqn:Ep.
    + destruct (ok (PoetryInstall (make_env_name s0) (parent p)));
        [destruct (ok (HelpModules (make_env_name s0)))|];
        cbn [In]; rewrite IH; split;
        (intros H; repeat destruct H as [H|H]; try discriminate; try tauto);
        (destruct H as [[<-|H] H']; [rewrite Ep in H'; destruct H' as [_ H']; discriminate|tauto]).
    + cbn [In]; rewrite IH; split.
      * intros [H|H]; [injection H as <-; tauto|tauto].
      * intros [[<-|H] H']; [now left|tauto].
  - rewrite IH; split; [tauto|].
    intros [[<-|H] [H1 H2]]; [rewrite Em in H1; discriminate|tauto].
Qed.

(** ** Unpacking *)

(** X10: the student name [unpack] reads from an archive's file name is a
    non-empty run of lowercase letters that the name starts with, directly
    followed by ["_"]; conversely a file named [s_...] for such a run [s]
    is read as student [s]. *)
Theorem student_of_filename_roundtrip :
  (forall s rest, s <> EmptyString -> all_lower s = true ->
     student_of_filename (s ++ String "_" rest) = Some s) /\
  (forall f s, student_of_filename f = Some s ->
     s <> EmptyString /\ all_lower s = true /\ exists rest, f = (s ++ String "_" rest)%string).
Proof.
  split.
  - intros s rest Hne Hl; unfold student_of_filename; rewrite span_lower_app by exact Hl.
    destruct s; [contradiction|reflexivity].
  - intros f s; unfold student_of_filename.
    destruct (span_lower f) as [a b] eqn:E.
    apply span_lower_inv in E as [-> Hl].
    destruct a as [|x a]; [discriminate|].
    destruct b as [|ch b]; [discriminate|].
    destruct ch as [[] [] [] [] [] [] [] []]; try discriminate.
    intros H; injection H as <-.
    split; [discriminate|split; [exact Hl|exists b; reflexivity]].
Qed.

Lemma student_of_filename_roundtrip_witness :
  student_of_filename ("dave" ++ String "_" "hw2.zip") = Some "dave"%string.
Proof.
  apply (proj1 student_of_filename_roundtrip); [discriminate|reflexivity].
Defined.

(** X11: [unpack] never changes what is already in the code directory,
    even when it stops on an exception; every directory it adds is named
    after the student of one of the archives and holds that archive's
    members (nothing when the archive is not a valid zip file). *)
Theorem unpack_keeps_existing (c : codedir) (subs : list submission) :
  (forall k e, lookup_child k c = Some e -> lookup_child k (fst (unpack_loop c subs)) = Some e) /\
  (forall k e, lookup_child k c = None -> lookup_child k (fst (unpack_loop c subs)) = Some e ->
     exists sub, In sub subs /\ student_of_filename (filename sub) = Some k /\
       e = EDir (match members sub with Some files => files | None => [] end)).
Proof.
  revert c; induction subs as [|sub rest IH]; intros c.
  - simpl; split; [auto|congruence].
  - cbn [unpack_loop].
    destruct (student_of_filename (filename sub)) as [st|] eqn:Est; [|cbn [fst]; split; [auto|congruence]].
    destruct (lookup_child st c) as [[|files]|] eqn:Elk; [cbn [fst]; split; [auto|congruence]| |].
    + destruct (IH c) as [IH1 IH2]; split; [exact IH1|].
      intros k e Hn Hk; destruct (IH2 k e Hn Hk) as (sub' & H1 & H2); exists sub'.
      split; [now right|exact H2].
    + destruct (members sub) as [files|] eqn:Em.
      * destruct (IH (c ++ [(st, EDir files)])) as [IH1 IH2]; split.
        -- intros k e Hk; apply IH1; rewrite lookup_child_app, Hk; reflexivity.
        -- intros k e Hn Hk.
           destruct (String.eqb_spec k st) as [->|Hne].
           ++ rewrite (IH1 st (EDir files)) in Hk by (apply lookup_child_added, Elk).
              injection Hk as <-; exists sub.
              split; [now left|split; [exact Est|rewrite Em; reflexivity]].
           ++ assert (Hn' : lookup_child k (c ++ [(st, EDir files)]) = None).
              { rewrite lookup_child_app, Hn; unfold lookup_child; simpl.
                destruct (String.eqb_spec st k); [congruence|reflexivity]. }
              destruct (IH2 k e Hn' Hk) as (sub' & H1 & H2); exists sub'.
              split; [now right|exact H2].
      * cbn [fst]; split.
        -- intros k e Hk; rewrite lookup_child_app, Hk; reflexivity.
        -- intros k e Hn Hk; rewrite lookup_child_app, Hn in Hk.
           unfold lookup_child in Hk; simpl in Hk.
           destruct (String.eqb_spec st k) as [<-|]; [|discriminate].
           injection Hk as <-; exists sub.
           split; [now left|split; [exact Est|rewrite Em; reflexivity]].
Qed.

Lemma unpack_keeps_existing_witness :
  lookup_child "alice" (fst (unpack_loop Demo.c3 Demo.subs)) = Some Demo.proj.
Proof.
  apply (proj1 (unpack_keeps_existing Demo.c3 Demo.subs)); reflexivity.
Defined.

(** ** Grading session *)

(** X12: [start] followed by [next] in the printed directory moves to the
    second student of the roster (the first one again for a one-student
    roster), when names are unique and every student has a manifest:
    [start] prints the directory of the first student's manifest, and
    [next] prints the directory of the next student's manifest and its
    environment. *)
Theorem start_then_next (code_dir : path) (c : codedir) (s0 : string) (rest : list string) :
  wf_codedir c -> has_manifests code_dir c -> sorted (dir_names c) = s0 :: rest ->
  exists p s1 p1,
    find_pyproject_toml code_dir (TDir c) s0 = Some p /\
    start_grading code_dir (TDir c) = Ok (parent p, make_env_name s0) /\
    nth_error (s0 :: rest) (1 mod S (List.length rest)) = Some s1 /\
    find_pyproject_toml code_dir (TDir c) s1 = Some p1 /\
    grade_next_student code_dir (parent p) (TDir c) = Ok (parent p1, make_env_name s1).
Proof.
  intros Hwf Hman Hr.
  destruct (Hman s0) as [p Hp].
  { apply roster_In; rewrite Hr; now left. }
  destruct (find_pyproject_shape _ _ _ _ Hp) as [rel [Hne Hpe]].
  assert (Hpar : parent p = code_dir ++ s0 :: removelast rel).
  { rewrite Hpe; unfold parent; rewrite removelast_app by discriminate.
    destruct rel; [congruence|reflexivity]. }
  assert (H0 : nth_error (sorted (dir_names c)) 0 = Some s0) by (rewrite Hr; reflexivity).
  destruct (next_step code_dir c 0 s0 (removelast rel) Hwf Hman H0) as (s1 & p1 & Hs1 & Hp1 & Hn).
  exists p, s1, p1; split; [exact Hp|split; [|split; [|split; [exact Hp1|]]]].
  - unfold start_grading, get_students; cbn [bind]; rewrite Hr; cbn [bind getitem nth_error].
    unfold project_dir; rewrite Hp; reflexivity.
  - rewrite Hr in Hs1; exact Hs1.
  - rewrite Hpar; exact Hn.
Qed.

Lemma start_then_next_witness :
  exists p s1 p1,
    find_pyproject_toml Demo.home (TDir Demo.c3) "alice" = Some p /\
    start_grading Demo.home (TDir Demo.c3) = Ok (parent p, make_env_name "alice") /\
    nth_error ["alice"; "bob"; "carol"] (1 mod 3) = Some s1 /\
    find_pyproject_toml Demo.home (TDir Demo.c3) s1 = Some p1 /\
    grade_next_student Demo.home (parent p) (TDir Demo.c3) = Ok (parent p1, make_env_name s1).
Proof.
  exact (start_then_next Demo.home Demo.c3 "alice" ["bob"; "carol"]
           Demo_c3_wf Demo_c3_manifests eq_refl).
Defined.

(** X13: a student directory without a [pyproject.toml] makes [start]
    (for the first student of the roster) and [next] (for the student it
    moves to) fail with [AttributeError] instead of printing a command. *)
Theorem missing_manifest_attribute_error (code_dir : path) (c : codedir) :
  (forall s0 rest, sorted (dir_names c) = s0 :: rest ->
     find_pyproject_toml code_dir (TDir c) s0 = None ->
     start_grading code_dir (TDir c) = Err AttributeError) /\
  (forall i s s' rest, wf_codedir c ->
     nth_error (sorted (dir_names c)) i = Some s ->
     nth_error (sorted (dir_names c)) ((i + 1) mod List.length (sorted (dir_names c))) = Some s' ->
     find_pyproject_toml code_dir (TDir c) s' = None ->
     grade_next_student code_dir (code_dir ++ s :: rest) (TDir c) = Err AttributeError).
Proof.
  split.
  - intros s0 rest Hr Hn.
    unfold start_grading, get_students; cbn [bind]; rewrite Hr; cbn [bind getitem nth_error].
    unfold project_dir; rewrite Hn; reflexivity.
  - intros i s s' rest Hwf Hi Hs' Hn.
    set (roster := sorted (dir_names c)) in *.
    unfold grade_next_student, relative_to.
    rewrite strip_prefix_app; cbn [bind first_part get_students].
    fold roster; unfold index_r.
    rewrite (index_nth_NoDup roster i s (roster_NoDup c Hwf) Hi); cbn [bind].
    unfold getitem; rewrite Hs'; cbn [bind].
    unfold project_dir; rewrite Hn; reflexivity.
Qed.

Lemma missing_manifest_attribute_error_witness :
  start_grading Demo.home (TDir Demo.c_missing) = Err AttributeError /\
  grade_next_student Demo.home (Demo.home ++ ["carol"]) (TDir Demo.c_missing) = Err AttributeError.
Proof.
  destruct (missing_manifest_attribute_error Demo.home Demo.c_missing) as [H1 H2].
  split.
  - exact (H1 "aaron" ["alice"; "bob"; "carol"] eq_refl eq_refl).
  - apply (H2 3 "carol" "aaron" []); [|reflexivity|reflexivity|reflexivity].
    unfold wf_codedir; simpl; repeat constructor; simpl; intuition discriminate.
Defined.
